(** * ServiceNow-2-Notion: the callout-fix integration script

    A shallow embedding of [patch/config/test-callout-fix.py].

    The script is I/O plumbing: it reads one HTML fixture, posts it to the
    import service, prints a summary of the service's validation report and
    maps the outcome to a process exit status.  The embedding keeps the I/O
    visible: every [print], the [open]/[read] of the fixture, the
    [requests.post] call and the [response.json()] call leave an event in a
    trace, and a Python exception aborts the rest of the function.  What the
    file system and the service answer is supplied by a [world].

    Standard output is taken to be a UTF-8 text stream with strict error
    handling, Python's default: [print] raises [UnicodeEncodeError] on a
    text that holds a lone surrogate, which [response.json()] yields from an
    escape such as [\ud800] and [response.text] from a body in a charset
    such as UTF-7, and on nothing else.  Limits of resources (recursion
    depth, memory, a closed stream) are not modelled. *)

From Stdlib Require Import ZArith List String Ascii Bool Lia.
From Stdlib Require Import Floats.SpecFloat.
From Stdlib Require Import DecimalString.
Import ListNotations.

Set Warnings "-register-all".

Open Scope string_scope.
Open Scope Z_scope.

(** ** Python values, as [json.loads] builds them *)

Module Py.

(** A JSON document decoded by Python: [None], [bool], [int], [float],
    [str], [list] and [dict].  A [dict] keeps its bindings in insertion
    order; a lookup takes the first binding of the key (a decoded [dict]
    has one binding per key).  A [str] is held as its UTF-8 bytes, a lone
    surrogate as the three bytes [ED A0..BF 80..BF] that stand for it. *)
Inductive pyval : Type :=
| PyNone
| PyBool (b : bool)
| PyInt (n : Z)
| PyFloat (f : spec_float)
| PyStr (s : string)
| PyList (l : list pyval)
| PyDict (d : list (string * pyval)).

(** The exceptions the script can meet; none of them is caught. *)
Inductive exn : Type :=
| OSError            (* [open]/[read]: missing or unreadable file, bad encoding *)
| RequestException   (* [requests.post]: connection failure or timeout *)
| JSONDecodeError    (* [response.json()] on a body that is not JSON *)
| AttributeError     (* [.get] on a value that is not a [dict] *)
| KeyError           (* [d[k]] on a [dict] without [k] *)
| TypeError          (* subscript, [in] or [for] on a value without them *)
| UnicodeEncodeError. (* [print] of a text with a lone surrogate *)

(** [bool(v)]. *)
Definition truthy (v : pyval) : bool :=
  match v with
  | PyNone => false
  | PyBool b => b
  | PyInt n => negb (n =? 0)
  | PyFloat (S754_zero _) => false
  | PyFloat _ => true
  | PyStr EmptyString => false
  | PyStr _ => true
  | PyList [] => false
  | PyList _ => true
  | PyDict [] => false
  | PyDict _ => true
  end.

Fixpoint lookup (k : string) (d : list (string * pyval)) : option pyval :=
  match d with
  | [] => None
  | (k', v) :: d' => if String.eqb k k' then Some v else lookup k d'
  end.

(** The value bound to [k], or [dflt]. *)
Definition find (k : string) (d : list (string * pyval)) (dflt : pyval)
    : pyval :=
  match lookup k d with
  | Some v => v
  | None => dflt
  end.

(** [o.get(k, dflt)]: only a [dict] has the method. *)
Definition get (o : pyval) (k : string) (dflt : pyval) : exn + pyval :=
  match o with
  | PyDict d => inr (find k d dflt)
  | _ => inl AttributeError
  end.

(** [o[k]] with a [str] key. *)
Definition getitem (o : pyval) (k : string) : exn + pyval :=
  match o with
  | PyDict d =>
      match lookup k d with Some v => inr v | None => inl KeyError end
  | _ => inl TypeError
  end.

Definition is_PyStr (k : string) (v : pyval) : bool :=
  match v with
  | PyStr s => String.eqb s k
  | _ => false
  end.

Definition is_substring (k s : string) : bool :=
  match String.index 0 k s with
  | Some _ => true
  | None => false
  end.

(** [k in o] with a [str] on the left. *)
Definition contains (o : pyval) (k : string) : exn + bool :=
  match o with
  | PyDict d =>
      inr (match lookup k d with Some _ => true | None => false end)
  | PyList l => inr (existsb (is_PyStr k) l)
  | PyStr s => inr (is_substring k s)
  | _ => inl TypeError
  end.

(** A byte [10xxxxxx] continues a UTF-8 sequence. *)
Definition is_continuation (c : ascii) : bool :=
  let n := N_of_ascii c in ((128 <=? n) && (n <? 192))%N.

Definition continues (s : string) : bool :=
  match s with
  | String c _ => is_continuation c
  | EmptyString => false
  end.

(** The characters of a [str], held here as its UTF-8 bytes. *)
Fixpoint characters (s : string) : list string :=
  match s with
  | EmptyString => []
  | String c rest =>
      match characters rest with
      | p :: ps =>
          if continues rest then String c p :: ps
          else String c EmptyString :: p :: ps
      | [] => [String c EmptyString]
      end
  end.

(** What [for x in o] runs over. *)
Definition iter (o : pyval) : exn + list pyval :=
  match o with
  | PyList l => inr l
  | PyStr s => inr (map PyStr (characters s))
  | PyDict d => inr (map (fun kv => PyStr (fst kv)) d)
  | _ => inl TypeError
  end.

(** A byte [A0..BF], which after [ED] makes a surrogate. *)
Definition opens_surrogate (s : string) : bool :=
  match s with
  | String c _ => (160 <=? N_of_ascii c)%N && (N_of_ascii c <=? 191)%N
  | EmptyString => false
  end.

(** Whether a [str] holds a surrogate code point (U+D800 to U+DFFF). *)
Fixpoint has_surrogate (s : string) : bool :=
  match s with
  | EmptyString => false
  | String c rest =>
      ((N_of_ascii c =? 237)%N && opens_surrogate rest) || has_surrogate rest
  end.

Definition string_of_Z (n : Z) : string :=
  NilZero.string_of_int (Z.to_int n).

(** [str(v)] for [None], [bool], [int] and [str].  The text Python gives a
    [float], a [list] or a [dict] is not modelled. *)
Definition str (v : pyval) : option string :=
  match v with
  | PyNone => Some "None"
  | PyBool true => Some "True"
  | PyBool false => Some "False"
  | PyInt n => Some (string_of_Z n)
  | PyStr s => Some s
  | _ => None
  end.

End Py.

Export Py.

(** ** Effects *)

Module Effects.

(** One piece of a printed line: literal text of an f-string, a value put
    in by [{...}] (or handed to [print] as it is), and the text of
    [json.dumps(v, indent=n)]. *)
Inductive piece : Type :=
| Lit (s : string)
| Fmt (v : pyval)
| Dumps (v : pyval) (indent : Z).

Definition line := list piece.

(** Whether UTF-8 can encode the text of a value put into a line: every
    text but a [str] with a surrogate in it.  ([str] of a [list] or a
    [dict] escapes the surrogates of the strings inside, as [repr] does.) *)
Definition value_encodable (v : pyval) : bool :=
  match v with
  | PyStr s => negb (has_surrogate s)
  | _ => true
  end.

(** [json.dumps] escapes every character outside ASCII. *)
Definition piece_encodable (p : piece) : bool :=
  match p with
  | Lit s => negb (has_surrogate s)
  | Fmt v => value_encodable v
  | Dumps _ _ => true
  end.

(** Whether [print] can write the line. *)
Definition encodable (l : line) : bool := forallb piece_encodable l.

Inductive event : Type :=
| EvPrint (l : line)
| EvOpenRead (path : string)
| EvPost (url : string) (json : pyval) (timeout : Z)
| EvJson.

Record response : Type := mkResponse {
  status_code : Z;
  (** [response.text]: the body decoded under the charset the service
      names, with [errors="replace"].  Under UTF-8 it holds no surrogate;
      under UTF-7 it can (the body [+2AA-] decodes to U+D800). *)
  text : string;
  (** what [response.json()] makes of the body; [None] when it is not JSON *)
  json_body : option pyval
}.

(** The file system and the service, as the script sees them. *)
Record world : Type := mkWorld {
  (** the text of the file at a path; [None] when it cannot be read *)
  read_text : string -> option string;
  (** the answer to a POST of a JSON body to a URL within the given wait;
      [None] when the connection fails or the wait runs out *)
  serve : string -> pyval -> Z -> option response
}.

(** A computation leaves a trace and ends in a value or an exception. *)
Definition M (A : Type) : Type := (list event * (exn + A))%type.

Definition ret {A} (a : A) : M A := ([], inr a).

Definition raise {A} (e : exn) : M A := ([], inl e).

Definition bind {A B} (m : M A) (f : A -> M B) : M B :=
  match m with
  | (t, inl e) => (t, inl e)
  | (t, inr a) => let '(t', r) := f a in ((t ++ t')%list, r)
  end.

Definition lift {A} (r : exn + A) : M A := ([], r).

Definition emit (e : event) : M unit := ([e], inr tt).

(** [print(...)]: the line is written whole, or not at all. *)
Definition print (l : line) : M unit :=
  if encodable l then emit (EvPrint l) else raise UnicodeEncodeError.

End Effects.

Export Effects.

Declare Scope py_scope.
Delimit Scope py_scope with py.
Notation "x <- m ;; k" := (bind m (fun x => k))
  (at level 61, m at next level, right associativity) : py_scope.
Notation "m ;; k" := (bind m (fun _ => k))
  (at level 61, right associativity) : py_scope.
Open Scope py_scope.

(** ** The script *)

Module Script.

Definition SERVER_URL : string := "http://localhost:3004".
Definition DATABASE_ID : string := "282a89fedba5815e91f0db972912ef9f".
Definition HTML_FILE : string :=
  "/Users/norton-mcintosh/GitHub/ServiceNow-2-Notion/patch/pages-to-update/performance-overview-2025-11-13T06-49-50.html".

(** [Path.name]: what follows the last [/]. *)
Fixpoint name_acc (acc p : string) : string :=
  match p with
  | EmptyString => acc
  | String c rest =>
      if Ascii.eqb c "/"%char then name_acc rest rest else name_acc acc rest
  end.

Definition name (p : string) : string := name_acc p p.

(** [with open(HTML_FILE, 'r', encoding='utf-8') as f: f.read()] *)
Definition open_read (w : world) (path : string) : M string :=
  emit (EvOpenRead path) ;;
  match read_text w path with
  | Some s => ret s
  | None => raise OSError
  end.

(** [requests.post(url, json=payload, timeout=timeout)] *)
Definition requests_post (w : world) (url : string) (payload : pyval)
    (timeout : Z) : M response :=
  emit (EvPost url payload timeout) ;;
  match serve w url payload timeout with
  | Some r => ret r
  | None => raise RequestException
  end.

(** [response.json()] *)
Definition response_json (r : response) : M pyval :=
  emit EvJson ;;
  match json_body r with
  | Some v => ret v
  | None => raise JSONDecodeError
  end.

(** The request body of lines 23-32. *)
Definition payload_of (html_content : string) : pyval :=
  PyDict
    [ ("title", PyStr "Performance Overview (TEST FIX v3)");
      ("databaseId", PyStr DATABASE_ID);
      ("contentHtml", PyStr html_content);
      ("url", PyStr ("https://example.servicenow.com/" ++ name HTML_FILE));
      ("properties",
        PyDict [ ("Source", PyStr "ServiceNow KB");
                 ("Status", PyStr "Published") ]) ].

(** One counter line: [print(f"<label>{counts.get(key, 0)}")]. *)
Definition print_counter (label : string) (counts : pyval) (key : string)
    : M unit :=
  n <- lift (get counts key (PyInt 0)) ;;
  print [Lit label; Fmt n].

(** Lines 58-63 and 65-70: the same block, once for ['source'] and once for
    ['notion'].  The heading is printed before the first counter is looked
    up, and [validation[key]] is evaluated anew for each line. *)
Definition print_counts (heading : string) (validation : pyval)
    (key : string) : M unit :=
  present <- lift (contains validation key) ;;
  if (present : bool) then
    print [Lit heading] ;;
    c <- lift (getitem validation key) ;;
    print_counter "      Tables: " c "tables" ;;
    c <- lift (getitem validation key) ;;
    print_counter "      Images: " c "images" ;;
    c <- lift (getitem validation key) ;;
    print_counter "      Lists: " c "lists" ;;
    c <- lift (getitem validation key) ;;
    print_counter "      Callouts: " c "callouts"
  else ret tt.

(** The body of the [for] loop of lines 74-75. *)
Fixpoint print_each (errors : list pyval) : M unit :=
  match errors with
  | [] => ret tt
  | error :: rest => print [Lit "      - "; Fmt error] ;; print_each rest
  end.

(** Lines 72-75. *)
Definition print_errors (validation : pyval) : M unit :=
  present <- lift (contains validation "errors") ;;
  nonempty <- (if (present : bool)
               then e <- lift (getitem validation "errors") ;; ret (truthy e)
               else ret false) ;;
  if (nonempty : bool) then
    print [Lit "
   ⚠️ Errors:"] ;;
    e <- lift (getitem validation "errors") ;;
    errors <- lift (iter e) ;;
    print_each errors
  else ret tt.

Definition test_callout_fix (w : world) : M bool :=
  print [Lit "📄 Testing callout fix with: "; Fmt (PyStr (name HTML_FILE))] ;;
  html_content <- open_read w HTML_FILE ;;
  let payload := payload_of html_content in
  print [Lit "🚀 Creating page..."] ;;
  response <- requests_post w (SERVER_URL ++ "/api/W2N") payload 120 ;;
  if negb (status_code response =? 200) then
    print [Lit "❌ Error: HTTP "; Fmt (PyInt (status_code response))] ;;
    print [Fmt (PyStr (text response))] ;;
    ret false
  else
    result <- response_json response ;;
    success <- lift (get result "success" PyNone) ;;
    if negb (truthy success) then
      print [Lit "❌ Page creation failed"] ;;
      print [Dumps result 2] ;;
      ret false
    else
      page_id <- lift (get result "pageId" PyNone) ;;
      validation <- lift (get result "validation" (PyDict [])) ;;
      has_errors <- lift (get validation "hasErrors" (PyBool true)) ;;
      print [Lit "✅ Page created: "; Fmt page_id] ;;
      url <- lift (get result "url" PyNone) ;;
      print [Lit "   URL: "; Fmt url] ;;
      print [Lit "
📊 Validation Results:"] ;;
      print [Lit "   Has Errors: "; Fmt has_errors] ;;
      print_counts "
   Source counts:" validation "source" ;;
      print_counts "
   Notion counts:" validation "notion" ;;
      print_errors validation ;;
      ret (negb (truthy has_errors)).

(** [success = test_callout_fix(); sys.exit(0 if success else 1)].  An
    exception nobody catches ends the process with status 1. *)
Definition main (w : world) : list event * Z :=
  match test_callout_fix w with
  | (t, inr success) => (t, if (success : bool) then 0 else 1)
  | (t, inl _) => (t, 1)
  end.

Definition trace (w : world) : list event := fst (main w).
Definition exit_code (w : world) : Z := snd (main w).

End Script.

Export Script.

(** ** The function in stages

    [test_callout_fix] is one function in the source.  To state what happens
    after a given line, its tails get names: [check_response] is lines 37-77
    as a function of the response, [report] is lines 44-77 as a function of
    the decoded result, [summary] is lines 49-77 and [blocks] is lines 58-75.
    [test_callout_fix_stages], [blocks_then] and the lemmas on [report] tie
    them to the function. *)

Module Stages.

Definition summary (result : pyval) : M bool :=
  page_id <- lift (get result "pageId" PyNone) ;;
  validation <- lift (get result "validation" (PyDict [])) ;;
  has_errors <- lift (get validation "hasErrors" (PyBool true)) ;;
  print [Lit "✅ Page created: "; Fmt page_id] ;;
  url <- lift (get result "url" PyNone) ;;
  print [Lit "   URL: "; Fmt url] ;;
  print [Lit "
📊 Validation Results:"] ;;
  print [Lit "   Has Errors: "; Fmt has_errors] ;;
  print_counts "
   Source counts:" validation "source" ;;
  print_counts "
   Notion counts:" validation "notion" ;;
  print_errors validation ;;
  ret (negb (truthy has_errors)).

Definition report (result : pyval) : M bool :=
  success <- lift (get result "success" PyNone) ;;
  if negb (truthy success) then
    print [Lit "❌ Page creation failed"] ;;
    print [Dumps result 2] ;;
    ret false
  else summary result.

(** Lines 58-75: the two counts blocks and the errors block. *)
Definition blocks (validation : pyval) : M unit :=
  print_counts "
   Source counts:" validation "source" ;;
  print_counts "
   Notion counts:" validation "notion" ;;
  print_errors validation.

Definition check_response (response : response) : M bool :=
  if negb (status_code response =? 200) then
    print [Lit "❌ Error: HTTP "; Fmt (PyInt (status_code response))] ;;
    print [Fmt (PyStr (text response))] ;;
    ret false
  else
    result <- response_json response ;;
    report result.

(** The URL the request goes to. *)
Definition endpoint : string := SERVER_URL ++ "/api/W2N".

(** The trace up to the attempt to read the fixture. *)
Definition until_open : list event :=
  [ EvPrint [Lit "📄 Testing callout fix with: "; Fmt (PyStr (name HTML_FILE))];
    EvOpenRead HTML_FILE ].

(** The trace up to the POST, the fixture read as [html]. *)
Definition until_post (html : string) : list event :=
  (until_open ++
   [ EvPrint [Lit "🚀 Creating page..."];
     EvPost endpoint (payload_of html) 120 ])%list.

(** The exit status of a finished call, as [main] takes it. *)
Definition status_of (r : exn + bool) : Z :=
  match r with
  | inr true => 0
  | _ => 1
  end.

(** The requests found in a trace. *)
Fixpoint posts (t : list event) : list (string * pyval * Z) :=
  match t with
  | [] => []
  | EvPost url body timeout :: t' => (url, body, timeout) :: posts t'
  | _ :: t' => posts t'
  end.

(** Whether a trace has a call of [response.json()]. *)
Fixpoint decodes (t : list event) : bool :=
  match t with
  | [] => false
  | EvJson :: _ => true
  | _ :: t' => decodes t'
  end.

(** The lines printed, in order. *)
Fixpoint printed (t : list event) : list line :=
  match t with
  | [] => []
  | EvPrint l :: t' => l :: printed t'
  | _ :: t' => printed t'
  end.

(** The text of a line, where [str] gives one for each of its values. *)
Fixpoint render (l : line) : option string :=
  match l with
  | [] => Some EmptyString
  | Lit s :: l' => option_map (append s) (render l')
  | Fmt v :: l' =>
      match str v, render l' with
      | Some s, Some s' => Some (s ++ s')
      | _, _ => None
      end
  | Dumps _ _ :: _ => None
  end.

(** The four lines that open the summary. *)
Definition summary_head (r v : list (string * pyval)) : list event :=
  [ EvPrint [Lit "✅ Page created: "; Fmt (find "pageId" r PyNone)];
    EvPrint [Lit "   URL: "; Fmt (find "url" r PyNone)];
    EvPrint [Lit "
📊 Validation Results:"];
    EvPrint [Lit "   Has Errors: "; Fmt (find "hasErrors" v (PyBool true))] ].

(** What the call returns once the blocks have ended as [b]. *)
Definition verdict (v : list (string * pyval)) (b : exn + unit)
    : exn + bool :=
  match b with
  | inl e => inl e
  | inr _ => inr (negb (truthy (find "hasErrors" v (PyBool true))))
  end.

Definition is_print (e : event) : bool :=
  match e with
  | EvPrint _ => true
  | _ => false
  end.

(** Every run is in one of the three stages. *)
Inductive stage (w : world) : Type :=
| Unreadable (Hread : read_text w HTML_FILE = None)
| Unreachable (html : string)
    (Hread : read_text w HTML_FILE = Some html)
    (Hserve : serve w endpoint (payload_of html) 120 = None)
| Answered (html : string) (resp : response)
    (Hread : read_text w HTML_FILE = Some html)
    (Hserve : serve w endpoint (payload_of html) 120 = Some resp).

End Stages.

Export Stages.

(** ** The shape of a validation report that the summary can print *)

Module Shape.

(** A counts entry is absent or a [dict]. *)
Definition counts_shape (key : string) (d : list (string * pyval)) : bool :=
  match lookup key d with
  | None | Some (PyDict _) => true
  | Some _ => false
  end.

Definition iterable (v : pyval) : bool :=
  match v with
  | PyList _ | PyStr _ | PyDict _ => true
  | _ => false
  end.

(** The errors entry is absent, falsy, or something a [for] runs over. *)
Definition errors_shape (d : list (string * pyval)) : bool :=
  match lookup "errors" d with
  | None => true
  | Some e => negb (truthy e) || iterable e
  end.

Definition printable (validation : pyval) : bool :=
  match validation with
  | PyDict d =>
      counts_shape "source" d && counts_shape "notion" d && errors_shape d
  | _ => false
  end.

(** The five lines of a counts block. *)
Definition counts_lines (heading : string) (counts : list (string * pyval))
    : list line :=
  [ [Lit heading];
    [Lit "      Tables: "; Fmt (find "tables" counts (PyInt 0))];
    [Lit "      Images: "; Fmt (find "images" counts (PyInt 0))];
    [Lit "      Lists: "; Fmt (find "lists" counts (PyInt 0))];
    [Lit "      Callouts: "; Fmt (find "callouts" counts (PyInt 0))] ].

(** The warning lines of an errors list. *)
Definition warning_lines (errors : list pyval) : list line :=
  map (fun e => [Lit "      - "; Fmt e]) errors.

End Shape.

Export Shape.

(** ** What a run prints and does, line by line *)

Module Output.

Definition banner_line : line :=
  [Lit "📄 Testing callout fix with: "; Fmt (PyStr (name HTML_FILE))].

Definition creating_line : line := [Lit "🚀 Creating page..."].

Definition source_heading : string := "
   Source counts:".

Definition notion_heading : string := "
   Notion counts:".

Definition errors_heading : string := "
   ⚠️ Errors:".

(** The lines a counts block leaves: none without the entry, the heading and
    the four counters for a [dict], the heading alone when the first counter
    line raises. *)
Definition counts_output (heading key : string)
    (v : list (string * pyval)) : list line :=
  match lookup key v with
  | None => []
  | Some (PyDict c) => counts_lines heading c
  | Some _ => [[Lit heading]]
  end.

(** The lines the errors block leaves: none without the entry or on a falsy
    one, the heading and a warning for each element of what [for] runs over,
    the heading alone when line 74 raises. *)
Definition errors_output (v : list (string * pyval)) : list line :=
  match lookup "errors" v with
  | None => []
  | Some e =>
      if truthy e then
        match iter e with
        | inr errors => [Lit errors_heading] :: warning_lines errors
        | inl _ => [[Lit errors_heading]]
        end
      else []
  end.

(** The lines of the three blocks: a block that raises is the last one. *)
Definition blocks_output (v : list (string * pyval)) : list line :=
  (counts_output source_heading "source" v ++
   if counts_shape "source" v
   then counts_output notion_heading "notion" v ++
        (if counts_shape "notion" v then errors_output v else [])
   else [])%list.

(** How the three blocks end. *)
Definition blocks_result (v : list (string * pyval)) : exn + unit :=
  if counts_shape "source" v then
    if counts_shape "notion" v then
      if errors_shape v then inr tt else inl TypeError
    else inl AttributeError
  else inl AttributeError.

(** The events of a trace that are not prints. *)
Definition actions (t : list event) : list event :=
  filter (fun e => negb (is_print e)) t.

(** A line that opens with a blank or a line feed. *)
Definition indented (l : line) : bool :=
  match l with
  | Lit (String c _) :: _ => Ascii.eqb c " " || Ascii.eqb c "010"
  | _ => false
  end.

(** A line that opens with the cross mark of lines 38 and 45. *)
Definition is_failure_line (l : line) : bool :=
  match l with
  | Lit s :: _ => String.prefix "❌" s
  | _ => false
  end.

Definition join (l : list string) : string :=
  fold_right append EmptyString l.

(** The lines of the summary in the order of lines 53-75, as far as no
    block raises. *)
Definition summary_lines (r v : list (string * pyval)) : list line :=
  (printed (summary_head r v) ++ blocks_output v)%list.

(** The lines of the summary that come before each block. *)
Definition before_source (r v : list (string * pyval)) : list line :=
  printed (summary_head r v).

Definition before_notion (r v : list (string * pyval)) : list line :=
  (printed (summary_head r v) ++
   counts_output source_heading "source" v)%list.

Definition before_errors (r v : list (string * pyval)) : list line :=
  (printed (summary_head r v) ++
   counts_output source_heading "source" v ++
   counts_output notion_heading "notion" v)%list.

(** The lines written of a list of lines to print: those before the first
    one that cannot be encoded. *)
Fixpoint written (ls : list line) : list line :=
  match ls with
  | [] => []
  | l :: ls' => if encodable l then l :: written ls' else []
  end.

(** One [print] after the other. *)
Fixpoint print_all (ls : list line) : M unit :=
  match ls with
  | [] => ret tt
  | l :: ls' => print l ;; print_all ls'
  end.

(** Print the lines, then end as [r]. *)
Definition print_then {A} (ls : list line) (r : exn + A) : M A :=
  print_all ls ;; lift r.

(** The lines of the error report of lines 38-39. *)
Definition rejection_lines (resp : response) : list line :=
  [ [Lit "❌ Error: HTTP "; Fmt (PyInt (status_code resp))];
    [Fmt (PyStr (text resp))] ].

(** How a run that reaches the summary ends. *)
Definition summary_result (r v : list (string * pyval)) : exn + bool :=
  if forallb encodable (summary_lines r v)
  then verdict v (blocks_result v)
  else inl UnicodeEncodeError.

End Output.

Export Output.

(** ** The outcome of a run *)

Module Outcome.

(** The results on which the call returns [True]. *)
Definition accepted (result : pyval) : bool :=
  match result with
  | PyDict r =>
      truthy (find "success" r PyNone) &&
      match find "validation" r (PyDict []) with
      | PyDict v =>
          negb (truthy (find "hasErrors" v (PyBool true))) &&
          printable (PyDict v) &&
          forallb encodable (summary_lines r v)
      | _ => false
      end
  | _ => false
  end.

(** The lines lines 44-77 try to print for a decoded result, and how they
    end when every line can be written. *)
Definition report_lines (result : pyval) : list line :=
  match result with
  | PyDict r =>
      if truthy (find "success" r PyNone) then
        match find "validation" r (PyDict []) with
        | PyDict v => summary_lines r v
        | _ => []
        end
      else [ [Lit "❌ Page creation failed"]; [Dumps result 2] ]
  | _ => []
  end.

Definition report_end (result : pyval) : exn + bool :=
  match result with
  | PyDict r =>
      if truthy (find "success" r PyNone) then
        match find "validation" r (PyDict []) with
        | PyDict v => verdict v (blocks_result v)
        | _ => inl AttributeError
        end
      else inr false
  | _ => inl AttributeError
  end.

(** The run decoded a result with a truthy [success] and reached line 51
    with [validation] and [has_errors]. *)
Definition reported (w : world) (validation has_errors : pyval) : Prop :=
  exists html resp result success,
    read_text w HTML_FILE = Some html /\
    serve w endpoint (payload_of html) 120 = Some resp /\
    status_code resp = 200 /\
    json_body resp = Some result /\
    get result "success" PyNone = inr success /\
    truthy success = true /\
    get result "validation" (PyDict []) = inr validation /\
    get validation "hasErrors" (PyBool true) = inr has_errors.

End Outcome.

Export Outcome.

(** ** Example runs *)

Module Examples.

(** A world whose fixture reads as [html] and whose service answers
    [resp] to every request. *)
Definition world_of (html : string) (resp : response) : world :=
  mkWorld (fun _ => Some html) (fun _ _ _ => Some resp).

(** A world without the fixture. *)
Definition world_without_fixture : world :=
  mkWorld (fun _ => None)
          (fun _ _ _ => Some (mkResponse 200 "{}" (Some (PyDict [])))).

Definition fixture : string := "<div class='note'>Callout</div>".

(** A 200 answer decoded as [result]; the text of the body is left out. *)
Definition answer (result : pyval) : response :=
  mkResponse 200 "{...}" (Some result).

Definition counts (tables images lists callouts : Z) : pyval :=
  PyDict [ ("tables", PyInt tables); ("images", PyInt images);
           ("lists", PyInt lists); ("callouts", PyInt callouts) ].

(** The scenario of the specification: matching counts, no errors. *)
Definition matching_result : pyval :=
  PyDict
    [ ("success", PyBool true);
      ("pageId", PyStr "abc123");
      ("url", PyStr "https://notion.so/abc123");
      ("validation",
        PyDict [ ("hasErrors", PyBool false);
                 ("source", counts 2 0 0 1);
                 ("notion", counts 2 0 0 1) ]) ].

(** A clean report whose [source] entry is a number. *)
Definition number_for_source : pyval :=
  PyDict
    [ ("success", PyBool true);
      ("validation",
        PyDict [ ("hasErrors", PyBool false); ("source", PyInt 3) ]) ].

(** A failed import that still carries a clean validation report. *)
Definition failed_result : list (string * pyval) :=
  [ ("success", PyBool false);
    ("validation", PyDict [ ("hasErrors", PyBool false) ]) ].

(** A successful import whose counts miss some counters. *)
Definition sparse_validation : list (string * pyval) :=
  [ ("hasErrors", PyBool false);
    ("source", PyDict [ ("tables", PyInt 2) ]);
    ("notion", PyDict []) ].

Definition sparse_result : list (string * pyval) :=
  [ ("success", PyBool true); ("validation", PyDict sparse_validation) ].

(** A successful import that reports no errors and still lists some. *)
Definition validation_with (errors : list pyval) : list (string * pyval) :=
  [ ("hasErrors", PyBool false); ("errors", PyList errors) ].

Definition result_with (errors : list pyval) : list (string * pyval) :=
  [ ("success", PyBool true);
    ("validation", PyDict (validation_with errors)) ].

End Examples.

(** ** More example runs *)

Module Cases.

(** The fixture is there, the service is not. *)
Definition world_unreachable : world :=
  mkWorld (fun _ => Some Examples.fixture) (fun _ _ _ => None).

(** A 200 answer whose body is not JSON. *)
Definition html_answer : response :=
  mkResponse 200 "<html>Bad gateway</html>" None.

(** A result wrapped in an array. *)
Definition wrapped_result : pyval :=
  PyList [PyDict [("success", PyBool true)]].

(** A created page whose validation report is [null]. *)
Definition null_validation : list (string * pyval) :=
  [ ("success", PyBool true);
    ("pageId", PyStr "abc123");
    ("validation", PyNone) ].

(** A result whose [success] is the number 0. *)
Definition zero_success : list (string * pyval) :=
  [ ("success", PyInt 0); ("pageId", PyStr "abc123") ].

(** A clean report whose [notion] entry is a list. *)
Definition list_for_notion : list (string * pyval) :=
  [ ("hasErrors", PyBool false);
    ("source", PyDict [("tables", PyInt 1)]);
    ("notion", PyList [PyInt 1]) ].

(** A successful result around a validation report. *)
Definition created (v : list (string * pyval)) : list (string * pyval) :=
  [ ("success", PyBool true);
    ("pageId", PyStr "abc123");
    ("url", PyStr "https://notion.so/abc123");
    ("validation", PyDict v) ].

(** A clean report with a given [errors] entry. *)
Definition clean_with (errors : pyval) : list (string * pyval) :=
  [ ("hasErrors", PyBool false); ("errors", errors) ].

(** The text ["\ud800"] decoded: a lone surrogate, U+D800. *)
Definition lone_surrogate : string :=
  String "237" (String "160" (String "128" EmptyString)).




End Cases.

(** ** Running the monad *)

Section Monad.

Context {A B : Type}.

Lemma bind_value (t : list event) (a : A) (f : A -> M B) :
  bind (t, inr a) f = ((t ++ fst (f a))%list, snd (f a)).
Proof. unfold bind. destruct (f a); reflexivity. Qed.

Lemma bind_raise (t : list event) (e : exn) (f : A -> M B) :
  bind (t, inl e) f = (t, inl e).
Proof. reflexivity. Qed.

Lemma bind_ret (a : A) (f : A -> M B) : bind (ret a) f = f a.
Proof. unfold ret. rewrite bind_value. destruct (f a); reflexivity. Qed.

Lemma bind_lift (r : exn + A) (f : A -> M B) :
  bind (lift r) f = match r with inl e => ([], inl e) | inr a => f a end.
Proof.
  destruct r as [e | a]; [reflexivity |].
  unfold lift. rewrite bind_value. destruct (f a); reflexivity.
Qed.

Lemma bind_lift_value (a : A) (f : A -> M B) : bind (lift (inr a)) f = f a.
Proof. apply bind_lift. Qed.

Lemma bind_lift_raise (e : exn) (f : A -> M B) :
  bind (lift (inl e)) f = lift (inl e).
Proof. reflexivity. Qed.

Lemma fst_bind (m : M A) (f : A -> M B) :
  fst (bind m f) =
  (fst m ++ match snd m with inl _ => [] | inr a => fst (f a) end)%list.
Proof.
  destruct m as [t [e | a]]; cbn [fst snd].
  - rewrite bind_raise, app_nil_r. reflexivity.
  - rewrite bind_value. reflexivity.
Qed.

Lemma snd_bind (m : M A) (f : A -> M B) :
  snd (bind m f) = match snd m with inl e => inl e | inr a => snd (f a) end.
Proof.
  destruct m as [t [e | a]]; cbn [fst snd].
  - reflexivity.
  - rewrite bind_value. reflexivity.
Qed.

End Monad.

Lemma bind_assoc {A B C} (m : M A) (f : A -> M B) (g : B -> M C) :
  bind (bind m f) g = bind m (fun a => bind (f a) g).
Proof.
  destruct m as [t [e | a]]; [reflexivity |].
  rewrite !bind_value.
  destruct (f a) as [t' [e | b]]; cbn [fst snd]; [reflexivity |].
  rewrite !bind_value. cbn [fst snd]. now rewrite app_assoc.
Qed.

Lemma bind_unit_r (m : M unit) : (m ;; lift (inr tt)) = m.
Proof.
  destruct m as [t [e | []]]; [reflexivity |].
  rewrite bind_value. cbn. now rewrite app_nil_r.
Qed.

Lemma bind_emit {B} (e : event) (f : unit -> M B) :
  bind (emit e) f = (e :: fst (f tt), snd (f tt)).
Proof. unfold emit. rewrite bind_value. reflexivity. Qed.

(** A line that can be encoded is written; another one ends the call. *)
Lemma bind_print {B} (l : line) (f : unit -> M B) :
  bind (print l) f =
  if encodable l then (EvPrint l :: fst (f tt), snd (f tt))
  else ([], inl UnicodeEncodeError).
Proof.
  unfold print. destruct (encodable l); [apply bind_emit | reflexivity].
Qed.

Lemma bind_print_ok {B} (l : line) (f : unit -> M B) :
  encodable l = true ->
  bind (print l) f = (EvPrint l :: fst (f tt), snd (f tt)).
Proof. intros H. now rewrite bind_print, H. Qed.

(** ** Printing a list of lines *)

Section PrintAll.

Lemma print_all_app (ls ls' : list line) :
  print_all (ls ++ ls') = (print_all ls ;; print_all ls').
Proof.
  induction ls as [| l ls IH]; cbn [app print_all].
  - now rewrite bind_ret.
  - now rewrite bind_assoc, IH.
Qed.

Lemma print_then_cons {A} (l : line) (ls : list line) (r : exn + A) :
  (print l ;; print_then ls r) = print_then (l :: ls) r.
Proof. unfold print_then. cbn [print_all]. now rewrite bind_assoc. Qed.

Lemma print_then_nil {A} (r : exn + A) : lift r = print_then [] r.
Proof. unfold print_then. cbn [print_all]. now rewrite bind_ret. Qed.

Lemma print_all_then {A} (ls ls' : list line) (r : exn + A) :
  (print_all ls ;; print_then ls' r) = print_then (ls ++ ls') r.
Proof. unfold print_then. now rewrite print_all_app, bind_assoc. Qed.

Lemma print_then_value {A B} (ls : list line) (a : A) (f : A -> M B) :
  bind (print_then ls (inr a)) f = (print_all ls ;; f a).
Proof. unfold print_then. now rewrite bind_assoc, bind_lift_value. Qed.

Lemma print_then_raise {A B} (ls : list line) (e : exn) (f : A -> M B) :
  bind (print_then ls (inl e)) f = print_then ls (inl e).
Proof. unfold print_then. now rewrite bind_assoc. Qed.

(** The lines before the first one that cannot be encoded are written; the
    call ends as [r] when there is none, in [UnicodeEncodeError] else. *)
Lemma print_then_run {A} (ls : list line) (r : exn + A) :
  print_then ls r =
  (map EvPrint (written ls),
   if forallb encodable ls then r else inl UnicodeEncodeError).
Proof.
  induction ls as [| l ls IH].
  - rewrite <- print_then_nil. reflexivity.
  - rewrite <- print_then_cons, bind_print, IH. cbn [written forallb].
    now destruct (encodable l).
Qed.

Lemma written_all (ls : list line) :
  forallb encodable ls = true -> written ls = ls.
Proof.
  induction ls as [| l ls IH]; [reflexivity |]. cbn [forallb written].
  intros H. apply andb_prop in H as [-> H]. now rewrite IH.
Qed.

Lemma written_app (ls ls' : list line) :
  forallb encodable ls = true ->
  written (ls ++ ls') = (ls ++ written ls')%list.
Proof.
  induction ls as [| l ls IH]; [reflexivity |]. cbn [forallb written app].
  intros H. apply andb_prop in H as [-> H]. now rewrite IH.
Qed.

Lemma written_subset (ls : list line) (l : line) :
  In l (written ls) -> In l ls.
Proof.
  induction ls as [| l' ls IH]; [easy |]. cbn [written].
  destruct (encodable l'); [| easy].
  intros [-> | H]; [now left | right; auto].
Qed.

End PrintAll.

(** ** The stages of a run *)

Section Run.

Variable w : world.

Lemma test_callout_fix_stages :
  test_callout_fix w =
  (print [Lit "📄 Testing callout fix with: "; Fmt (PyStr (name HTML_FILE))] ;;
   html_content <- open_read w HTML_FILE ;;
   print [Lit "🚀 Creating page..."] ;;
   response <- requests_post w endpoint (payload_of html_content) 120 ;;
   check_response response).
Proof. reflexivity. Qed.

Lemma open_read_value (path html : string) :
  read_text w path = Some html ->
  open_read w path = ([EvOpenRead path], inr html).
Proof. intros H. unfold open_read. rewrite bind_emit, H. reflexivity. Qed.

Lemma open_read_raise (path : string) :
  read_text w path = None ->
  open_read w path = ([EvOpenRead path], inl OSError).
Proof. intros H. unfold open_read. rewrite bind_emit, H. reflexivity. Qed.

Lemma requests_post_value (url : string) (body : pyval) (timeout : Z)
    (resp : response) :
  serve w url body timeout = Some resp ->
  requests_post w url body timeout = ([EvPost url body timeout], inr resp).
Proof. intros H. unfold requests_post. rewrite bind_emit, H. reflexivity. Qed.

Lemma requests_post_raise (url : string) (body : pyval) (timeout : Z) :
  serve w url body timeout = None ->
  requests_post w url body timeout =
  ([EvPost url body timeout], inl RequestException).
Proof. intros H. unfold requests_post. rewrite bind_emit, H. reflexivity. Qed.

(** The fixture cannot be read: the call ends in [OSError] at line 19. *)
Lemma run_unreadable :
  read_text w HTML_FILE = None ->
  test_callout_fix w = (until_open, inl OSError).
Proof.
  intros Hread. rewrite test_callout_fix_stages.
  rewrite bind_print_ok by reflexivity.
  rewrite (open_read_raise _ Hread). reflexivity.
Qed.

(** The service cannot be reached: the call ends in [RequestException] at
    line 35. *)
Lemma run_unreachable (html : string) :
  read_text w HTML_FILE = Some html ->
  serve w endpoint (payload_of html) 120 = None ->
  test_callout_fix w = (until_post html, inl RequestException).
Proof.
  intros Hread Hserve. rewrite test_callout_fix_stages.
  rewrite bind_print_ok by reflexivity.
  rewrite (open_read_value _ _ Hread), bind_value.
  rewrite bind_print_ok by reflexivity.
  rewrite (requests_post_raise _ _ _ Hserve). reflexivity.
Qed.

(** The service answers: the rest of the call is [check_response]. *)
Lemma run_answered (html : string) (resp : response) :
  read_text w HTML_FILE = Some html ->
  serve w endpoint (payload_of html) 120 = Some resp ->
  test_callout_fix w =
  ((until_post html ++ fst (check_response resp))%list,
   snd (check_response resp)).
Proof.
  intros Hread Hserve. rewrite test_callout_fix_stages.
  rewrite bind_print_ok by reflexivity.
  rewrite (open_read_value _ _ Hread), bind_value.
  rewrite bind_print_ok by reflexivity.
  rewrite (requests_post_value _ _ _ _ Hserve), bind_value. reflexivity.
Qed.

(** Every run is in one of the three stages. *)
Lemma stage_of_run : stage w.
Proof.
  destruct (read_text w HTML_FILE) as [html |] eqn:Hread.
  - destruct (serve w endpoint (payload_of html) 120) as [resp |] eqn:Hserve.
    + exact (Answered w html resp Hread Hserve).
    + exact (Unreachable w html Hread Hserve).
  - exact (Unreadable w Hread).
Qed.

Lemma main_unreadable :
  read_text w HTML_FILE = None -> main w = (until_open, 1).
Proof. intros H. unfold main. rewrite (run_unreadable H). reflexivity. Qed.

Lemma main_unreachable (html : string) :
  read_text w HTML_FILE = Some html ->
  serve w endpoint (payload_of html) 120 = None ->
  main w = (until_post html, 1).
Proof.
  intros Hr Hs. unfold main. rewrite (run_unreachable html Hr Hs).
  reflexivity.
Qed.

Lemma main_answered (html : string) (resp : response) :
  read_text w HTML_FILE = Some html ->
  serve w endpoint (payload_of html) 120 = Some resp ->
  main w =
  ((until_post html ++ fst (check_response resp))%list,
   status_of (snd (check_response resp))).
Proof.
  intros Hr Hs. unfold main. rewrite (run_answered html resp Hr Hs).
  destruct (snd (check_response resp)) as [e | [|]]; reflexivity.
Qed.

End Run.

Lemma trace_of_run (w : world) : trace w = fst (test_callout_fix w).
Proof.
  unfold trace, main. now destruct (test_callout_fix w) as [t [e | b]].
Qed.

Lemma exit_code_of_run (w : world) :
  exit_code w = status_of (snd (test_callout_fix w)).
Proof.
  unfold exit_code, main.
  now destruct (test_callout_fix w) as [t [e | [|]]].
Qed.

(** ** The summary blocks on a [dict] *)

(** Both sides are built of prints of the same lines: settle each line. *)
Ltac settle_prints :=
  unfold print_then, print_all, print, emit, raise, lift, ret;
  repeat match goal with
         | |- context [encodable ?l] => destruct (encodable l)
         end;
  reflexivity.

Section Blocks.

Variable v : list (string * pyval).

(** A counts block prints [counts_output] and raises after it when the
    entry is not a [dict]. *)
Lemma print_counts_run (heading key : string) :
  print_counts heading (PyDict v) key =
  print_then (counts_output heading key v)
    (if counts_shape key v then inr tt else inl AttributeError).
Proof.
  unfold print_counts, counts_output, counts_shape, getitem, print_counter.
  cbn [contains]. rewrite bind_lift_value.
  destruct (lookup key v) as [x |]; [| settle_prints].
  rewrite !bind_lift_value.
  destruct x; cbn [get]; rewrite ?bind_lift_value, ?bind_lift_raise;
    unfold counts_lines; settle_prints.
Qed.

Lemma print_each_run (errors : list pyval) :
  print_each errors = print_all (warning_lines errors).
Proof.
  induction errors as [| e rest IH]; [reflexivity |].
  cbn [print_each warning_lines map print_all]. now rewrite IH.
Qed.

Lemma iter_iterable (e : pyval) :
  iterable e = true -> exists errors, iter e = inr errors.
Proof. destruct e; try discriminate; intros _; eexists; reflexivity. Qed.

Lemma iter_not_iterable (e : pyval) :
  iterable e = false -> iter e = inl TypeError.
Proof. destruct e; try discriminate; reflexivity. Qed.

(** The errors block prints [errors_output] and raises after it when the
    entry is truthy and no [for] can run over it. *)
Lemma print_errors_run :
  print_errors (PyDict v) =
  print_then (errors_output v)
    (if errors_shape v then inr tt else inl TypeError).
Proof.
  unfold print_errors, errors_output, errors_shape, getitem.
  cbn [contains]. rewrite bind_lift_value.
  destruct (lookup "errors" v) as [e |]; [| now rewrite bind_ret].
  rewrite !bind_lift_value, bind_ret.
  destruct (truthy e); cbn [negb orb]; [| reflexivity].
  destruct (iterable e) eqn:Hi.
  - destruct (iter_iterable e Hi) as [errors ->].
    rewrite bind_lift_value, print_each_run.
    unfold print_then. cbn [print_all]. now rewrite bind_unit_r.
  - rewrite (iter_not_iterable e Hi), bind_lift_raise.
    unfold errors_heading. settle_prints.
Qed.

(** The three blocks print [blocks_output] and end as [blocks_result]. *)
Lemma blocks_run :
  blocks (PyDict v) = print_then (blocks_output v) (blocks_result v).
Proof.
  unfold blocks, blocks_output, blocks_result.
  rewrite !print_counts_run, print_errors_run.
  destruct (counts_shape "source" v).
  - rewrite print_then_value.
    destruct (counts_shape "notion" v).
    + now rewrite print_then_value, !print_all_then.
    + now rewrite print_then_raise, print_all_then, app_nil_r.
  - now rewrite print_then_raise, app_nil_r.
Qed.

Lemma blocks_complete :
  blocks_result v = inr tt <-> printable (PyDict v) = true.
Proof.
  unfold blocks_result, printable.
  destruct (counts_shape "source" v), (counts_shape "notion" v),
    (errors_shape v); cbn; split; congruence.
Qed.

End Blocks.

(** ** The report on a decoded result *)

Lemma blocks_then {A} (validation : pyval) (k : M A) :
  (print_counts "
   Source counts:" validation "source" ;;
   print_counts "
   Notion counts:" validation "notion" ;;
   print_errors validation ;;
   k) = (blocks validation ;; k).
Proof. unfold blocks. now rewrite !bind_assoc. Qed.

Section Report.

Variable r : list (string * pyval).

(** Lines 49-77 on a [dict] for [validation]: the lines of the summary,
    then the verdict. *)
Lemma summary_dict (v : list (string * pyval)) :
  find "validation" r (PyDict []) = PyDict v ->
  summary (PyDict r) =
  print_then (summary_lines r v) (verdict v (blocks_result v)).
Proof.
  intros Hv. unfold summary. cbn [get]. rewrite !bind_lift_value, Hv.
  cbn [get]. rewrite !bind_lift_value.
  rewrite blocks_then, blocks_run.
  assert (Hend : (print_then (blocks_output v) (blocks_result v) ;;
                  ret (negb (truthy (find "hasErrors" v (PyBool true))))) =
                 print_then (blocks_output v) (verdict v (blocks_result v))).
  { destruct (blocks_result v) as [e | []].
    - now rewrite print_then_raise.
    - now rewrite print_then_value. }
  rewrite Hend, !print_then_cons. reflexivity.
Qed.

Lemma summary_other :
  (forall v, find "validation" r (PyDict []) <> PyDict v) ->
  summary (PyDict r) = ([], inl AttributeError).
Proof.
  intros Hv. unfold summary. cbn [get]. rewrite !bind_lift_value.
  destruct (find "validation" r (PyDict [])); try reflexivity.
  now contradiction (Hv d).
Qed.

End Report.

(** Lines 44-77: the lines of the report, then its end. *)
Lemma report_run (result : pyval) :
  report result = print_then (report_lines result) (report_end result).
Proof.
  destruct result as [| | | | | | r]; try reflexivity.
  unfold report, report_lines, report_end. cbn [get].
  rewrite bind_lift_value.
  destruct (truthy (find "success" r PyNone)); cbn [negb].
  - destruct (find "validation" r (PyDict [])) as [| | | | | | v] eqn:Hv;
      try (rewrite summary_other;
           [reflexivity | intros v'; rewrite Hv; discriminate]).
    apply (summary_dict r v Hv).
  - reflexivity.
Qed.

Lemma report_closed (result : pyval) :
  report result =
  (map EvPrint (written (report_lines result)),
   if forallb encodable (report_lines result)
   then report_end result else inl UnicodeEncodeError).
Proof. rewrite report_run. apply print_then_run. Qed.

Lemma encodable_status (n : Z) :
  encodable [Lit "❌ Error: HTTP "; Fmt (PyInt n)] = true.
Proof. reflexivity. Qed.

Section Response.

Variable resp : response.

(** The first line of the error report is always written, the second when
    the text of the body can be. *)
Lemma rejection_written :
  written (rejection_lines resp) =
  [Lit "❌ Error: HTTP "; Fmt (PyInt (status_code resp))] ::
  (if has_surrogate (text resp) then [] else [[Fmt (PyStr (text resp))]]).
Proof.
  unfold rejection_lines. cbn [written].
  rewrite encodable_status.
  change (encodable [Fmt (PyStr (text resp))])
    with (negb (has_surrogate (text resp)) && true).
  now destruct (has_surrogate (text resp)).
Qed.

Lemma rejection_encodable :
  forallb encodable (rejection_lines resp) = negb (has_surrogate (text resp)).
Proof.
  unfold rejection_lines. cbn [forallb]. rewrite encodable_status.
  change (encodable [Fmt (PyStr (text resp))])
    with (negb (has_surrogate (text resp)) && true).
  now destruct (has_surrogate (text resp)).
Qed.

(** Any status but 200: lines 38-40. *)
Lemma check_response_rejected :
  status_code resp <> 200 ->
  check_response resp =
  (map EvPrint (written (rejection_lines resp)),
   if has_surrogate (text resp) then inl UnicodeEncodeError else inr false).
Proof.
  intros H. unfold check_response.
  apply Z.eqb_neq in H. rewrite H. cbn [negb].
  assert (Hrun : (print [Lit "❌ Error: HTTP "; Fmt (PyInt (status_code resp))] ;;
                  print [Fmt (PyStr (text resp))] ;; ret false) =
                 print_then (rejection_lines resp) (inr false))
    by (unfold rejection_lines; settle_prints).
  rewrite Hrun, print_then_run, rejection_encodable.
  now destruct (has_surrogate (text resp)).
Qed.

Lemma response_json_value (result : pyval) :
  json_body resp = Some result ->
  response_json resp = ([EvJson], inr result).
Proof. intros H. unfold response_json. rewrite bind_emit, H. reflexivity. Qed.

Lemma response_json_raise :
  json_body resp = None ->
  response_json resp = ([EvJson], inl JSONDecodeError).
Proof. intros H. unfold response_json. rewrite bind_emit, H. reflexivity. Qed.

Lemma check_response_undecodable :
  status_code resp = 200 ->
  json_body resp = None ->
  check_response resp = ([EvJson], inl JSONDecodeError).
Proof.
  intros H Hj. unfold check_response. rewrite H, (response_json_raise Hj).
  reflexivity.
Qed.

Lemma check_response_decoded (result : pyval) :
  status_code resp = 200 ->
  json_body resp = Some result ->
  check_response resp = (EvJson :: fst (report result), snd (report result)).
Proof.
  intros H Hj. unfold check_response.
  rewrite H, (response_json_value result Hj), bind_value. reflexivity.
Qed.

End Response.

(** ** What a trace holds *)

Section Traces.

Lemma posts_app (t t' : list event) :
  posts (t ++ t') = (posts t ++ posts t')%list.
Proof.
  induction t as [| e t IH]; [reflexivity |].
  destruct e; cbn [posts app]; rewrite IH; reflexivity.
Qed.

Lemma printed_app (t t' : list event) :
  printed (t ++ t') = (printed t ++ printed t')%list.
Proof.
  induction t as [| e t IH]; [reflexivity |].
  destruct e; cbn [printed app]; rewrite IH; reflexivity.
Qed.

Lemma printed_prints (ls : list line) : printed (map EvPrint ls) = ls.
Proof.
  induction ls as [| l ls IH]; [reflexivity |].
  cbn [map printed]. now rewrite IH.
Qed.

Lemma prints_no_post (t : list event) :
  forallb is_print t = true -> posts t = [].
Proof.
  induction t as [| e t IH]; [reflexivity |].
  destruct e; cbn; try discriminate; exact IH.
Qed.

Lemma prints_map (ls : list line) : forallb is_print (map EvPrint ls) = true.
Proof. induction ls as [| l ls IH]; [reflexivity | exact IH]. Qed.

Lemma printed_until_post (html : string) (t : list event) :
  printed (until_post html ++ EvJson :: t) =
  banner_line :: creating_line :: printed t.
Proof. reflexivity. Qed.

End Traces.

(** A value is a [dict] or it is not. *)
Lemma dict_or_not (x : pyval) :
  {d | x = PyDict d} + {forall d, x <> PyDict d}.
Proof.
  destruct x; try (right; discriminate). left. now exists d.
Qed.

(** After the decoding the call only prints. *)
Lemma report_prints (result : pyval) :
  forallb is_print (fst (report result)) = true.
Proof. rewrite report_closed. apply prints_map. Qed.

(** After the POST the call prints and decodes; it sends nothing more. *)
Lemma check_response_posts (resp : response) :
  posts (fst (check_response resp)) = [].
Proof.
  destruct (Z.eq_dec (status_code resp) 200) as [H | H].
  - destruct (json_body resp) as [result |] eqn:Hj.
    + rewrite (check_response_decoded resp result H Hj). cbn [fst posts].
      apply prints_no_post, report_prints.
    + now rewrite (check_response_undecodable resp H Hj).
  - rewrite (check_response_rejected resp H). cbn [fst].
    apply prints_no_post, prints_map.
Qed.

(** ** The exit status of a decoded result *)

Lemma status_of_verdict (v : list (string * pyval)) :
  status_of (verdict v (blocks_result v)) =
  if negb (truthy (find "hasErrors" v (PyBool true))) && printable (PyDict v)
  then 0 else 1.
Proof.
  destruct (printable (PyDict v)) eqn:Hp.
  - apply blocks_complete in Hp. rewrite Hp. cbn [verdict status_of].
    now destruct (negb _).
  - destruct (blocks_result v) as [e | []] eqn:Hb.
    + now rewrite andb_false_r.
    + apply blocks_complete in Hb. congruence.
Qed.

Lemma status_of_summary (r v : list (string * pyval)) :
  status_of (summary_result r v) =
  if negb (truthy (find "hasErrors" v (PyBool true))) &&
     printable (PyDict v) &&
     forallb encodable (summary_lines r v)
  then 0 else 1.
Proof.
  unfold summary_result.
  destruct (forallb encodable (summary_lines r v)).
  - now rewrite status_of_verdict, andb_true_r.
  - now rewrite andb_false_r.
Qed.

Lemma status_of_report (result : pyval) :
  status_of (snd (report result)) = if accepted result then 0 else 1.
Proof.
  rewrite report_closed. cbn [snd].
  destruct result as [| | | | | | r]; try reflexivity.
  cbn [report_lines report_end accepted].
  destruct (truthy (find "success" r PyNone)); cbn [andb].
  - destruct (find "validation" r (PyDict [])) as [| | | | | | v];
      try reflexivity.
    apply (status_of_summary r v).
  - reflexivity.
Qed.

Section Decoded.

Variables (w : world) (html : string) (resp : response).
Hypothesis Hread : read_text w HTML_FILE = Some html.
Hypothesis Hserve : serve w endpoint (payload_of html) 120 = Some resp.

(** Any status but 200: the line of line 38, the line of line 39 when the
    text of the body can be written, and no return when it cannot. *)
Lemma run_rejected :
  status_code resp <> 200 ->
  test_callout_fix w =
  ((until_post html ++
    EvPrint [Lit "❌ Error: HTTP "; Fmt (PyInt (status_code resp))] ::
    (if has_surrogate (text resp) then []
     else [EvPrint [Fmt (PyStr (text resp))]]))%list,
   if has_surrogate (text resp) then inl UnicodeEncodeError else inr false).
Proof.
  intros H. rewrite (run_answered w html resp Hread Hserve).
  rewrite (check_response_rejected resp H), (rejection_written resp).
  cbn [fst snd map]. now destruct (has_surrogate (text resp)).
Qed.

Lemma main_rejected :
  status_code resp <> 200 ->
  main w =
  ((until_post html ++
    EvPrint [Lit "❌ Error: HTTP "; Fmt (PyInt (status_code resp))] ::
    (if has_surrogate (text resp) then []
     else [EvPrint [Fmt (PyStr (text resp))]]))%list, 1).
Proof.
  intros H. unfold main. rewrite (run_rejected H).
  now destruct (has_surrogate (text resp)).
Qed.

Lemma main_undecodable :
  status_code resp = 200 ->
  json_body resp = None ->
  main w = ((until_post html ++ [EvJson])%list, 1).
Proof.
  intros H Hj. rewrite (main_answered w html resp Hread Hserve).
  now rewrite (check_response_undecodable resp H Hj).
Qed.

Lemma main_decoded (result : pyval) :
  status_code resp = 200 ->
  json_body resp = Some result ->
  main w =
  ((until_post html ++ EvJson :: fst (report result))%list,
   if accepted result then 0 else 1).
Proof.
  intros H Hj. rewrite (main_answered w html resp Hread Hserve).
  rewrite (check_response_decoded resp result H Hj). cbn [fst snd].
  now rewrite status_of_report.
Qed.

Lemma run_decoded (result : pyval) :
  status_code resp = 200 ->
  json_body resp = Some result ->
  test_callout_fix w =
  ((until_post html ++ EvJson :: fst (report result))%list,
   snd (report result)).
Proof.
  intros H Hj. rewrite (run_answered w html resp Hread Hserve).
  now rewrite (check_response_decoded resp result H Hj).
Qed.

(** The failure branch of lines 44-47. *)
Lemma main_failed (r : list (string * pyval)) :
  status_code resp = 200 ->
  json_body resp = Some (PyDict r) ->
  truthy (find "success" r PyNone) = false ->
  main w =
  ((until_post html ++
    [ EvJson;
      EvPrint [Lit "❌ Page creation failed"];
      EvPrint [Dumps (PyDict r) 2] ])%list, 1).
Proof.
  intros H Hj Hs. rewrite (main_decoded (PyDict r) H Hj).
  rewrite report_closed. cbn [report_lines report_end accepted fst].
  now rewrite Hs.
Qed.

(** The summary of lines 49-77: what is printed and how the call ends. *)
Lemma summary_run (r v : list (string * pyval)) :
  status_code resp = 200 ->
  json_body resp = Some (PyDict r) ->
  truthy (find "success" r PyNone) = true ->
  find "validation" r (PyDict []) = PyDict v ->
  printed (trace w) =
    banner_line :: creating_line :: written (summary_lines r v) /\
  snd (test_callout_fix w) = summary_result r v /\
  exit_code w = status_of (summary_result r v).
Proof.
  intros H Hj Hs Hv.
  rewrite exit_code_of_run, trace_of_run, (run_decoded (PyDict r) H Hj).
  rewrite report_closed. cbn [report_lines report_end fst snd].
  rewrite Hs, Hv, printed_until_post, printed_prints.
  repeat split.
Qed.

End Decoded.

(** ** Which lines can be written *)

Section Encodable.

Variables r v : list (string * pyval).

Lemma encodable_shown (label : string) (x : pyval) :
  has_surrogate label = false ->
  encodable [Lit label; Fmt x] = value_encodable x.
Proof. intros H. cbn. now rewrite H, andb_true_r. Qed.

Lemma head_encodable :
  forallb encodable (printed (summary_head r v)) =
  value_encodable (find "pageId" r PyNone) &&
  value_encodable (find "url" r PyNone) &&
  value_encodable (find "hasErrors" v (PyBool true)).
Proof.
  unfold summary_head. cbn [printed forallb].
  rewrite !encodable_shown by reflexivity.
  change (encodable [Lit "
📊 Validation Results:"]) with true.
  cbn [andb]. now rewrite andb_true_r, andb_assoc.
Qed.

Lemma warning_lines_encodable (errors : list pyval) :
  forallb encodable (warning_lines errors) = forallb value_encodable errors.
Proof.
  induction errors as [| e rest IH]; [reflexivity |].
  cbn [warning_lines map forallb].
  rewrite encodable_shown by reflexivity. f_equal. exact IH.
Qed.


Lemma summary_lines_encodable :
  forallb encodable (summary_lines r v) =
  forallb encodable (printed (summary_head r v)) &&
  forallb encodable (blocks_output v).
Proof. unfold summary_lines. apply forallb_app. Qed.

End Encodable.

(** [accepted], in the words of lines 44-51 and of the summary. *)
Lemma accepted_iff (result : pyval) :
  accepted result = true <->
  exists r v,
    result = PyDict r /\
    truthy (find "success" r PyNone) = true /\
    find "validation" r (PyDict []) = PyDict v /\
    truthy (find "hasErrors" v (PyBool true)) = false /\
    printable (PyDict v) = true /\
    forallb encodable (summary_lines r v) = true.
Proof.
  split.
  - destruct result as [| | | | | | r]; try discriminate. cbn [accepted].
    intros H. apply andb_prop in H as [Hs H].
    destruct (find "validation" r (PyDict [])) as [| | | | | | v] eqn:Hv;
      try discriminate.
    apply andb_prop in H as [H He]. apply andb_prop in H as [Hh Hp].
    apply negb_true_iff in Hh. exists r, v. auto 10.
  - intros (r & v & -> & Hs & Hv & Hh & Hp & He).
    cbn [accepted]. now rewrite Hs, Hv, Hh, Hp, He.
Qed.

(** ** The exit status *)

(** For a run that ends with status 1: what is left to show is that the
    conditions of status 0 cannot hold. *)
Ltac exits_with_one :=
  cbn [snd]; split; [split; [discriminate |] | now right].

(** C1, as the code has it: the exit status is 0 exactly when the service
    answers 200, the body decodes to an object with a truthy [success], the
    [hasErrors] of its validation report (taken as [True] when missing) is
    falsy, and the summary of lines 53-75 is printed to its end: no block
    raises on the shape of its entry, and every line can be encoded; it is
    1 in every other case. *)
Theorem exit_code_zero_iff (w : world) :
  (exit_code w = 0 <->
   exists html resp r v,
     read_text w HTML_FILE = Some html /\
     serve w endpoint (payload_of html) 120 = Some resp /\
     status_code resp = 200 /\
     json_body resp = Some (PyDict r) /\
     truthy (find "success" r PyNone) = true /\
     find "validation" r (PyDict []) = PyDict v /\
     truthy (find "hasErrors" v (PyBool true)) = false /\
     printable (PyDict v) = true /\
     forallb encodable (summary_lines r v) = true) /\
  (exit_code w = 0 \/ exit_code w = 1).
Proof.
  unfold exit_code.
  destruct (stage_of_run w) as [Hr | html Hr Hs | html resp Hr Hs].
  - rewrite (main_unreadable w Hr). exits_with_one.
    intros (html & resp & r & v & Hr' & _). congruence.
  - rewrite (main_unreachable w html Hr Hs). exits_with_one.
    intros (html' & resp & r & v & Hr' & Hs' & _). congruence.
  - assert (Hsame : forall html' resp',
              read_text w HTML_FILE = Some html' ->
              serve w endpoint (payload_of html') 120 = Some resp' ->
              resp' = resp).
    { intros html' resp' Hr' Hs'.
      assert (html' = html) by congruence. subst html'. congruence. }
    destruct (Z.eq_dec (status_code resp) 200) as [H | H].
    + destruct (json_body resp) as [result |] eqn:Hj.
      * rewrite (main_decoded w html resp Hr Hs result H Hj). cbn [snd].
        destruct (accepted result) eqn:Ha.
        -- split; [split; [intros _ | reflexivity] | now left].
           apply accepted_iff in Ha
             as (r & v & -> & Hsucc & Hv & Hh & Hp & He).
           exists html, resp, r, v. auto 10.
        -- exits_with_one.
           intros (html' & resp' & r & v & Hr' & Hs' & _ & Hj' & Hrest).
           rewrite (Hsame html' resp' Hr' Hs'), Hj in Hj'.
           injection Hj' as ->.
           assert (accepted (PyDict r) = true)
             by (apply accepted_iff; exists r, v; auto 10).
           congruence.
      * rewrite (main_undecodable w html resp Hr Hs H Hj). exits_with_one.
        intros (html' & resp' & r & v & Hr' & Hs' & _ & Hj' & _).
        rewrite (Hsame html' resp' Hr' Hs') in Hj'. congruence.
    + rewrite (main_rejected w html resp Hr Hs H). exits_with_one.
      intros (html' & resp' & r & v & Hr' & Hs' & H' & _).
      rewrite (Hsame html' resp' Hr' Hs') in H'. contradiction.
Qed.

(** C1 fails as stated: the service answers 200 with a truthy [success] and
    [hasErrors] false, line 51 computes [False], and the run still ends
    with status 1, because the [source] entry is a number and line 60
    raises [AttributeError]. *)
Lemma exit_code_one_on_clean_report :
  reported (Examples.world_of Examples.fixture
              (Examples.answer Examples.number_for_source))
    (PyDict [ ("hasErrors", PyBool false); ("source", PyInt 3) ])
    (PyBool false) /\
  truthy (PyBool false) = false /\
  test_callout_fix (Examples.world_of Examples.fixture
                      (Examples.answer Examples.number_for_source)) =
  ((until_post Examples.fixture ++
    EvJson ::
    summary_head [ ("success", PyBool true);
                   ("validation",
                     PyDict [ ("hasErrors", PyBool false);
                              ("source", PyInt 3) ]) ]
                 [ ("hasErrors", PyBool false); ("source", PyInt 3) ] ++
    [ EvPrint [Lit "
   Source counts:"] ])%list, inl AttributeError) /\
  exit_code (Examples.world_of Examples.fixture
               (Examples.answer Examples.number_for_source)) = 1.
Proof.
  split; [| split; [reflexivity | split; reflexivity]].
  exists Examples.fixture, (Examples.answer Examples.number_for_source),
    Examples.number_for_source, (PyBool true).
  repeat split.
Qed.

(** The three conditions of C1 do not decide the exit status on their
    own. *)
Lemma clean_report_does_not_decide :
  ~ (forall w, exit_code w = 0 <->
               exists validation has_errors,
                 reported w validation has_errors /\
                 truthy has_errors = false).
Proof.
  intros H.
  assert (H0 : exit_code (Examples.world_of Examples.fixture
                 (Examples.answer Examples.number_for_source)) = 0).
  { apply H.
    exists (PyDict [ ("hasErrors", PyBool false); ("source", PyInt 3) ]),
      (PyBool false).
    split; [| reflexivity].
    exists Examples.fixture, (Examples.answer Examples.number_for_source),
      Examples.number_for_source, (PyBool true).
    repeat split. }
  discriminate H0.
Qed.

(** Nor with a printable shape added: a page identifier that is a lone
    surrogate makes line 53 raise [UnicodeEncodeError], before any line of
    the summary. *)
Example unprintable_page_id_exits_one :
  test_callout_fix
    (Examples.world_of Examples.fixture
       (Examples.answer
          (PyDict [ ("success", PyBool true);
                    ("pageId", PyStr Cases.lone_surrogate);
                    ("validation",
                      PyDict [("hasErrors", PyBool false)]) ]))) =
  ((until_post Examples.fixture ++ [EvJson])%list, inl UnicodeEncodeError) /\
  exit_code
    (Examples.world_of Examples.fixture
       (Examples.answer
          (PyDict [ ("success", PyBool true);
                    ("pageId", PyStr Cases.lone_surrogate);
                    ("validation",
                      PyDict [("hasErrors", PyBool false)]) ]))) = 1 /\
  exit_code
    (Examples.world_of Examples.fixture
       (Examples.answer
          (PyDict [ ("success", PyBool true);
                    ("validation",
                      PyDict [("hasErrors", PyBool false)]) ]))) = 0.
Proof. repeat split. Qed.

(** ** The failure branch *)

(** C2: when the decoded result has [success] equal to [False], the run
    prints the failure line and the whole result under
    [json.dumps(result, indent=2)], prints nothing after it, and ends with
    status 1, whatever else the result holds. *)
Theorem failed_result_is_dumped (w : world) (html : string) (resp : response)
    (r : list (string * pyval)) :
  read_text w HTML_FILE = Some html ->
  serve w endpoint (payload_of html) 120 = Some resp ->
  status_code resp = 200 ->
  json_body resp = Some (PyDict r) ->
  lookup "success" r = Some (PyBool false) ->
  main w =
  ((until_post html ++
    [ EvJson;
      EvPrint [Lit "❌ Page creation failed"];
      EvPrint [Dumps (PyDict r) 2] ])%list, 1).
Proof.
  intros Hr Hs H Hj Hsucc.
  apply (main_failed w html resp Hr Hs r H Hj).
  unfold find. now rewrite Hsucc.
Qed.

Lemma failed_result_is_dumped_witness :
  main (Examples.world_of Examples.fixture
          (Examples.answer (PyDict Examples.failed_result))) =
  ((until_post Examples.fixture ++
    [ EvJson;
      EvPrint [Lit "❌ Page creation failed"];
      EvPrint [Dumps (PyDict Examples.failed_result) 2] ])%list, 1).
Proof.
  exact (failed_result_is_dumped
           (Examples.world_of Examples.fixture
              (Examples.answer (PyDict Examples.failed_result)))
           Examples.fixture
           (Examples.answer (PyDict Examples.failed_result))
           Examples.failed_result
           eq_refl eq_refl eq_refl eq_refl eq_refl).
Defined.

(** C10: when the decoded result has no [success] key, or has it bound to
    [None], the run takes the same branch as for [False]: the failure line,
    the dump of the result, status 1. *)
Theorem missing_success_is_failure (w : world) (html : string)
    (resp : response) (r : list (string * pyval)) :
  read_text w HTML_FILE = Some html ->
  serve w endpoint (payload_of html) 120 = Some resp ->
  status_code resp = 200 ->
  json_body resp = Some (PyDict r) ->
  lookup "success" r = None \/ lookup "success" r = Some PyNone ->
  main w =
  ((until_post html ++
    [ EvJson;
      EvPrint [Lit "❌ Page creation failed"];
      EvPrint [Dumps (PyDict r) 2] ])%list, 1).
Proof.
  intros Hr Hs H Hj Hsucc.
  apply (main_failed w html resp Hr Hs r H Hj).
  unfold find. now destruct Hsucc as [-> | ->].
Qed.

Lemma missing_success_is_failure_witness :
  main (Examples.world_of Examples.fixture
          (Examples.answer (PyDict [("pageId", PyStr "abc123")]))) =
  ((until_post Examples.fixture ++
    [ EvJson;
      EvPrint [Lit "❌ Page creation failed"];
      EvPrint [Dumps (PyDict [("pageId", PyStr "abc123")]) 2] ])%list, 1) /\
  main (Examples.world_of Examples.fixture
          (Examples.answer (PyDict [("success", PyNone)]))) =
  ((until_post Examples.fixture ++
    [ EvJson;
      EvPrint [Lit "❌ Page creation failed"];
      EvPrint [Dumps (PyDict [("success", PyNone)]) 2] ])%list, 1).
Proof.
  split.
  - exact (missing_success_is_failure
             (Examples.world_of Examples.fixture
                (Examples.answer (PyDict [("pageId", PyStr "abc123")])))
             Examples.fixture _ [("pageId", PyStr "abc123")]
             eq_refl eq_refl eq_refl eq_refl (or_introl eq_refl)).
  - exact (missing_success_is_failure
             (Examples.world_of Examples.fixture
                (Examples.answer (PyDict [("success", PyNone)])))
             Examples.fixture _ [("success", PyNone)]
             eq_refl eq_refl eq_refl eq_refl (or_intror eq_refl)).
Defined.

(** ** A missing [hasErrors] *)

(** C3: with a truthy [success], when the result has no [validation], or a
    [validation] without [hasErrors], [has_errors] is [True]: the run ends
    with status 1, and line 56, when the two lines before it can be
    written, prints [Has Errors: True]. *)
Theorem missing_hasErrors_is_failure (w : world) (html : string)
    (resp : response) (r : list (string * pyval)) :
  read_text w HTML_FILE = Some html ->
  serve w endpoint (payload_of html) 120 = Some resp ->
  status_code resp = 200 ->
  json_body resp = Some (PyDict r) ->
  truthy (find "success" r PyNone) = true ->
  lookup "validation" r = None \/
  (exists v, lookup "validation" r = Some (PyDict v) /\
             lookup "hasErrors" v = None) ->
  exit_code w = 1 /\
  render [Lit "   Has Errors: "; Fmt (PyBool true)] =
    Some "   Has Errors: True" /\
  (value_encodable (find "pageId" r PyNone) = true ->
   value_encodable (find "url" r PyNone) = true ->
   In [Lit "   Has Errors: "; Fmt (PyBool true)] (printed (trace w))).
Proof.
  intros Hr Hs H Hj Hsucc Hval.
  assert (Hv : exists v, find "validation" r (PyDict []) = PyDict v /\
                         find "hasErrors" v (PyBool true) = PyBool true).
  { unfold find. destruct Hval as [-> | (v & -> & Hh)].
    - now exists [].
    - exists v. now rewrite Hh. }
  destruct Hv as (v & Hv & Hh).
  destruct (summary_run w html resp Hr Hs r v H Hj Hsucc Hv)
    as (Hp & _ & Hexit).
  split; [| split; [reflexivity |]].
  - rewrite Hexit, status_of_summary, Hh. reflexivity.
  - intros Hid Hurl. rewrite Hp.
    unfold summary_lines, summary_head. rewrite Hh. cbn [printed app written].
    rewrite !encodable_shown, Hid, Hurl by reflexivity.
    cbn. auto 10.
Qed.

Lemma missing_hasErrors_is_failure_witness :
  (exit_code (Examples.world_of Examples.fixture
                (Examples.answer (PyDict [("success", PyBool true)]))) = 1 /\
   render [Lit "   Has Errors: "; Fmt (PyBool true)] =
     Some "   Has Errors: True" /\
   (value_encodable (find "pageId" [("success", PyBool true)] PyNone) =
      true ->
    value_encodable (find "url" [("success", PyBool true)] PyNone) = true ->
    In [Lit "   Has Errors: "; Fmt (PyBool true)]
       (printed (trace (Examples.world_of Examples.fixture
                          (Examples.answer
                             (PyDict [("success", PyBool true)]))))))) /\
  (exit_code (Examples.world_of Examples.fixture
                (Examples.answer
                   (PyDict [ ("success", PyBool true);
                             ("validation",
                               PyDict [("errors", PyList [])]) ]))) = 1 /\
   render [Lit "   Has Errors: "; Fmt (PyBool true)] =
     Some "   Has Errors: True" /\
   (value_encodable
      (find "pageId" [ ("success", PyBool true);
                       ("validation", PyDict [("errors", PyList [])]) ]
         PyNone) = true ->
    value_encodable
      (find "url" [ ("success", PyBool true);
                    ("validation", PyDict [("errors", PyList [])]) ]
         PyNone) = true ->
    In [Lit "   Has Errors: "; Fmt (PyBool true)]
       (printed (trace (Examples.world_of Examples.fixture
                          (Examples.answer
                             (PyDict [ ("success", PyBool true);
                                       ("validation",
                                         PyDict [("errors",
                                                   PyList [])]) ]))))))).
Proof.
  split.
  - exact (missing_hasErrors_is_failure
             (Examples.world_of Examples.fixture
                (Examples.answer (PyDict [("success", PyBool true)])))
             Examples.fixture _ [("success", PyBool true)]
             eq_refl eq_refl eq_refl eq_refl eq_refl (or_introl eq_refl)).
  - exact (missing_hasErrors_is_failure
             (Examples.world_of Examples.fixture
                (Examples.answer
                   (PyDict [ ("success", PyBool true);
                             ("validation",
                               PyDict [("errors", PyList [])]) ])))
             Examples.fixture _
             [ ("success", PyBool true);
               ("validation", PyDict [("errors", PyList [])]) ]
             eq_refl eq_refl eq_refl eq_refl eq_refl
             (or_intror
                (ex_intro _ [("errors", PyList [])]
                   (conj eq_refl eq_refl)))).
Defined.

Example missing_hasErrors_is_printed :
  In [Lit "   Has Errors: "; Fmt (PyBool true)]
     (printed (trace (Examples.world_of Examples.fixture
                        (Examples.answer
                           (PyDict [("success", PyBool true)]))))).
Proof. cbn. auto 10. Qed.

(** ** The status code *)




(** The run calls [response.json()] exactly when the service answers 200. *)
Lemma decodes_iff (w : world) :
  decodes (trace w) = true <->
  exists html resp,
    read_text w HTML_FILE = Some html /\
    serve w endpoint (payload_of html) 120 = Some resp /\
    status_code resp = 200.
Proof.
  unfold trace.
  destruct (stage_of_run w) as [Hr | html Hr Hs | html resp Hr Hs].
  - rewrite (main_unreadable w Hr). split; [discriminate |].
    intros (html & resp & Hr' & _). congruence.
  - rewrite (main_unreachable w html Hr Hs). split; [discriminate |].
    intros (html' & resp & Hr' & Hs' & _). congruence.
  - destruct (Z.eq_dec (status_code resp) 200) as [H | H].
    + split; [intros _; now exists html, resp |]. intros _.
      rewrite (main_answered w html resp Hr Hs). cbn [fst].
      destruct (json_body resp) as [result |] eqn:Hj.
      * now rewrite (check_response_decoded resp result H Hj).
      * now rewrite (check_response_undecodable resp H Hj).
    + rewrite (main_rejected w html resp Hr Hs H). cbn [fst].
      split; [now destruct (has_surrogate (text resp)) |].
      intros (html' & resp' & Hr' & Hs' & H').
      assert (html' = html) by congruence. subst html'.
      assert (resp' = resp) by congruence. subst resp'. contradiction.
Qed.

(** C9: the body is decoded exactly when the status code is 200; any other
    status, 201 and the rest of 2xx too, gets the error report of lines
    38-39 (its second line when the text of the body can be written) and
    status 1. *)
Theorem only_200_is_decoded (w : world) :
  (decodes (trace w) = true <->
   exists html resp,
     read_text w HTML_FILE = Some html /\
     serve w endpoint (payload_of html) 120 = Some resp /\
     status_code resp = 200) /\
  (forall html resp,
     read_text w HTML_FILE = Some html ->
     serve w endpoint (payload_of html) 120 = Some resp ->
     status_code resp <> 200 ->
     main w =
     ((until_post html ++
       EvPrint [Lit "❌ Error: HTTP "; Fmt (PyInt (status_code resp))] ::
       (if has_surrogate (text resp) then []
        else [EvPrint [Fmt (PyStr (text resp))]]))%list, 1)).
Proof.
  split; [apply decodes_iff |].
  intros html resp Hr Hs H. exact (main_rejected w html resp Hr Hs H).
Qed.

Lemma only_200_is_decoded_witness :
  main (Examples.world_of Examples.fixture
          (mkResponse 201 "Created" (Some Examples.matching_result))) =
  ((until_post Examples.fixture ++
    [ EvPrint [Lit "❌ Error: HTTP "; Fmt (PyInt 201)];
      EvPrint [Fmt (PyStr "Created")] ])%list, 1).
Proof.
  apply (proj2 (only_200_is_decoded
                  (Examples.world_of Examples.fixture
                     (mkResponse 201 "Created"
                        (Some Examples.matching_result))))
               Examples.fixture
               (mkResponse 201 "Created" (Some Examples.matching_result))
               eq_refl eq_refl).
  cbn. discriminate.
Defined.

(** ** The request *)

(** The requests of a run: none when the fixture cannot be read, else the
    one of line 35. *)
Lemma posts_of_run (w : world) :
  posts (trace w) =
  match read_text w HTML_FILE with
  | Some html => [(endpoint, payload_of html, 120)]
  | None => []
  end.
Proof.
  unfold trace.
  destruct (stage_of_run w) as [Hr | html Hr Hs | html resp Hr Hs]; rewrite Hr.
  - now rewrite (main_unreadable w Hr).
  - now rewrite (main_unreachable w html Hr Hs).
  - rewrite (main_answered w html resp Hr Hs). cbn [fst].
    rewrite posts_app, check_response_posts. reflexivity.
Qed.

(** C5: the requests of a run are none when the fixture cannot be read, and
    else exactly one, sent whatever the service then answers: a POST to
    [http://localhost:3004/api/W2N] with a wait of 120 seconds and a body
    of exactly the fields [title], [databaseId], [contentHtml] (the text
    read from the fixture), [url] and [properties], the last with the keys
    [Source] and [Status]. *)
Theorem one_post_of_the_fixture (w : world) :
  posts (trace w) =
  match read_text w HTML_FILE with
  | Some html =>
      [ ("http://localhost:3004/api/W2N",
         PyDict
           [ ("title", PyStr "Performance Overview (TEST FIX v3)");
             ("databaseId", PyStr "282a89fedba5815e91f0db972912ef9f");
             ("contentHtml", PyStr html);
             ("url",
               PyStr "https://example.servicenow.com/performance-overview-2025-11-13T06-49-50.html");
             ("properties",
               PyDict [ ("Source", PyStr "ServiceNow KB");
                        ("Status", PyStr "Published") ]) ],
         120) ]
  | None => []
  end /\
  (List.length (posts (trace w)) <= 1)%nat.
Proof.
  rewrite posts_of_run.
  destruct (read_text w HTML_FILE) as [html |]; split;
    try reflexivity; cbn; lia.
Qed.

Lemma one_post_of_the_fixture_witness :
  (posts (trace (Examples.world_of Examples.fixture
                   (Examples.answer Examples.matching_result))) =
   [ ("http://localhost:3004/api/W2N",
      PyDict
        [ ("title", PyStr "Performance Overview (TEST FIX v3)");
          ("databaseId", PyStr "282a89fedba5815e91f0db972912ef9f");
          ("contentHtml", PyStr Examples.fixture);
          ("url",
            PyStr "https://example.servicenow.com/performance-overview-2025-11-13T06-49-50.html");
          ("properties",
            PyDict [ ("Source", PyStr "ServiceNow KB");
                     ("Status", PyStr "Published") ]) ],
      120) ]) /\
  (posts (trace (Examples.world_of Examples.fixture
                   (mkResponse 500 "Internal Server Error" None))) =
   [ ("http://localhost:3004/api/W2N",
      PyDict
        [ ("title", PyStr "Performance Overview (TEST FIX v3)");
          ("databaseId", PyStr "282a89fedba5815e91f0db972912ef9f");
          ("contentHtml", PyStr Examples.fixture);
          ("url",
            PyStr "https://example.servicenow.com/performance-overview-2025-11-13T06-49-50.html");
          ("properties",
            PyDict [ ("Source", PyStr "ServiceNow KB");
                     ("Status", PyStr "Published") ]) ],
      120) ]) /\
  posts (trace Examples.world_without_fixture) = [].
Proof.
  split; [| split].
  - exact (proj1 (one_post_of_the_fixture
                    (Examples.world_of Examples.fixture
                       (Examples.answer Examples.matching_result)))).
  - exact (proj1 (one_post_of_the_fixture
                    (Examples.world_of Examples.fixture
                       (mkResponse 500 "Internal Server Error" None)))).
  - exact (proj1 (one_post_of_the_fixture Examples.world_without_fixture)).
Defined.

(** ** The fixture *)

(** Every trace opens with the banner and the attempt to read the
    fixture. *)
Lemma trace_opens (w : world) :
  exists rest,
    trace w = (until_open ++ rest)%list /\
    (read_text w HTML_FILE = None -> rest = []).
Proof.
  unfold trace.
  destruct (stage_of_run w) as [Hr | html Hr Hs | html resp Hr Hs].
  - rewrite (main_unreadable w Hr). exists []. now split.
  - rewrite (main_unreachable w html Hr Hs). eexists. split.
    + reflexivity.
    + congruence.
  - rewrite (main_answered w html resp Hr Hs). cbn [fst].
    unfold until_post. rewrite <- app_assoc. eexists. split.
    + reflexivity.
    + congruence.
Qed.

(** C6: when the fixture cannot be read the run stops at line 19, sends no
    request and ends with status 1; and in every run a request is sent only
    after the fixture has been opened and read. *)
Theorem unreadable_fixture_sends_nothing (w : world) :
  (read_text w HTML_FILE = None ->
   trace w = until_open /\ posts (trace w) = [] /\ exit_code w = 1) /\
  (forall before url body timeout after,
     trace w = (before ++ EvPost url body timeout :: after)%list ->
     In (EvOpenRead HTML_FILE) before /\
     exists html, read_text w HTML_FILE = Some html).
Proof.
  split.
  - intros Hr. unfold trace, exit_code. rewrite (main_unreadable w Hr).
    repeat split.
  - intros before url body timeout after Ht.
    destruct (trace_opens w) as (rest & Hopen & Hrest).
    rewrite Hopen in Ht. unfold until_open in Ht. cbn [app] in Ht.
    destruct before as [| a [| b before]]; cbn [app] in Ht;
      try discriminate.
    injection Ht as <- <- Ht. split; [cbn; auto |].
    destruct (read_text w HTML_FILE) as [html |]; [now exists html |].
    rewrite (Hrest eq_refl) in Ht. now destruct before.
Qed.

Lemma unreadable_fixture_sends_nothing_witness :
  trace Examples.world_without_fixture = until_open /\
  posts (trace Examples.world_without_fixture) = [] /\
  exit_code Examples.world_without_fixture = 1.
Proof.
  exact (proj1 (unreadable_fixture_sends_nothing
                  Examples.world_without_fixture) eq_refl).
Defined.

(** ** The counts blocks *)






(** ** The errors list *)







(** ** The scenarios of the specification, run *)

Example matching_run_exits_0 :
  exit_code (Examples.world_of Examples.fixture
               (Examples.answer Examples.matching_result)) = 0.
Proof. reflexivity. Qed.

Example matching_run_prints :
  map render
    (printed (trace (Examples.world_of Examples.fixture
                       (Examples.answer Examples.matching_result)))) =
  [ Some "📄 Testing callout fix with: performance-overview-2025-11-13T06-49-50.html";
    Some "🚀 Creating page...";
    Some "✅ Page created: abc123";
    Some "   URL: https://notion.so/abc123";
    Some "
📊 Validation Results:";
    Some "   Has Errors: False";
    Some "
   Source counts:";
    Some "      Tables: 2";
    Some "      Images: 0";
    Some "      Lists: 0";
    Some "      Callouts: 1";
    Some "
   Notion counts:";
    Some "      Tables: 2";
    Some "      Images: 0";
    Some "      Lists: 0";
    Some "      Callouts: 1" ].
Proof. reflexivity. Qed.

Example server_error_run :
  let w := Examples.world_of Examples.fixture
             (mkResponse 500 "Internal Server Error" None) in
  exit_code w = 1 /\
  map render (printed (trace w)) =
  [ Some "📄 Testing callout fix with: performance-overview-2025-11-13T06-49-50.html";
    Some "🚀 Creating page...";
    Some "❌ Error: HTTP 500";
    Some "Internal Server Error" ].
Proof. split; reflexivity. Qed.

Example sparse_run_prints :
  map render
    (printed (trace (Examples.world_of Examples.fixture
                       (Examples.answer (PyDict Examples.sparse_result))))) =
  [ Some "📄 Testing callout fix with: performance-overview-2025-11-13T06-49-50.html";
    Some "🚀 Creating page...";
    Some "✅ Page created: None";
    Some "   URL: None";
    Some "
📊 Validation Results:";
    Some "   Has Errors: False";
    Some "
   Source counts:";
    Some "      Tables: 2";
    Some "      Images: 0";
    Some "      Lists: 0";
    Some "      Callouts: 0";
    Some "
   Notion counts:";
    Some "      Tables: 0";
    Some "      Images: 0";
    Some "      Lists: 0";
    Some "      Callouts: 0" ] /\
  exit_code (Examples.world_of Examples.fixture
               (Examples.answer (PyDict Examples.sparse_result))) = 0.
Proof. split; reflexivity. Qed.

Example warnings_run_prints :
  map render
    (printed (trace (Examples.world_of Examples.fixture
                       (Examples.answer
                          (PyDict (Examples.result_with
                                     [PyStr "Table count mismatch";
                                      PyStr "Callout count mismatch"])))))) =
  [ Some "📄 Testing callout fix with: performance-overview-2025-11-13T06-49-50.html";
    Some "🚀 Creating page...";
    Some "✅ Page created: None";
    Some "   URL: None";
    Some "
📊 Validation Results:";
    Some "   Has Errors: False";
    Some "
   ⚠️ Errors:";
    Some "      - Table count mismatch";
    Some "      - Callout count mismatch" ] /\
  exit_code (Examples.world_of Examples.fixture
               (Examples.answer
                  (PyDict (Examples.result_with
                             [PyStr "Table count mismatch";
                              PyStr "Callout count mismatch"])))) = 0.
Proof. split; reflexivity. Qed.

(** ** Beyond the summary: the other ways a run ends *)

(** The service cannot be reached (connection refused, or no answer within
    the 120 seconds): [requests.post] raises at line 35, nothing is printed
    after the "Creating page" line, nothing is decoded, and the process ends
    with status 1. *)
Theorem unreachable_service_is_fatal (w : world) (html : string) :
  read_text w HTML_FILE = Some html ->
  serve w endpoint (payload_of html) 120 = None ->
  test_callout_fix w = (until_post html, inl RequestException) /\
  printed (trace w) = [banner_line; creating_line] /\
  decodes (trace w) = false /\
  exit_code w = 1.
Proof.
  intros Hr Hs. rewrite trace_of_run, exit_code_of_run.
  rewrite (run_unreachable w html Hr Hs). repeat split.
Qed.

Lemma unreachable_service_is_fatal_witness :
  test_callout_fix Cases.world_unreachable =
    (until_post Examples.fixture, inl RequestException) /\
  printed (trace Cases.world_unreachable) = [banner_line; creating_line] /\
  decodes (trace Cases.world_unreachable) = false /\
  exit_code Cases.world_unreachable = 1.
Proof.
  exact (unreachable_service_is_fatal Cases.world_unreachable
           Examples.fixture eq_refl eq_refl).
Defined.

(** A 200 answer whose body is not JSON: [response.json()] raises at line
    42, the body is not printed, and the process ends with status 1. *)
Theorem undecodable_body_is_fatal (w : world) (html : string)
    (resp : response) :
  read_text w HTML_FILE = Some html ->
  serve w endpoint (payload_of html) 120 = Some resp ->
  status_code resp = 200 ->
  json_body resp = None ->
  test_callout_fix w =
    ((until_post html ++ [EvJson])%list, inl JSONDecodeError) /\
  printed (trace w) = [banner_line; creating_line] /\
  exit_code w = 1.
Proof.
  intros Hr Hs H Hj. rewrite trace_of_run, exit_code_of_run.
  rewrite (run_answered w html resp Hr Hs).
  rewrite (check_response_undecodable resp H Hj). repeat split.
Qed.

Lemma undecodable_body_is_fatal_witness :
  test_callout_fix (Examples.world_of Examples.fixture Cases.html_answer) =
    ((until_post Examples.fixture ++ [EvJson])%list, inl JSONDecodeError) /\
  printed (trace (Examples.world_of Examples.fixture Cases.html_answer)) =
    [banner_line; creating_line] /\
  exit_code (Examples.world_of Examples.fixture Cases.html_answer) = 1.
Proof.
  exact (undecodable_body_is_fatal
           (Examples.world_of Examples.fixture Cases.html_answer)
           Examples.fixture Cases.html_answer
           eq_refl eq_refl eq_refl eq_refl).
Defined.

(** A 200 answer whose JSON is not an object (an array, a string, a number,
    [null]): [result.get] raises [AttributeError] at line 44; neither the
    failure line nor the result is printed, and the process ends with
    status 1. *)
Theorem non_object_result_is_fatal (w : world) (html : string)
    (resp : response) (result : pyval) :
  read_text w HTML_FILE = Some html ->
  serve w endpoint (payload_of html) 120 = Some resp ->
  status_code resp = 200 ->
  json_body resp = Some result ->
  (forall r, result <> PyDict r) ->
  test_callout_fix w =
    ((until_post html ++ [EvJson])%list, inl AttributeError) /\
  printed (trace w) = [banner_line; creating_line] /\
  exit_code w = 1.
Proof.
  intros Hr Hs H Hj Hres. rewrite trace_of_run, exit_code_of_run.
  rewrite (run_decoded w html resp Hr Hs result H Hj), report_closed.
  destruct result as [| | | | | | d];
    [| | | | | | now contradiction (Hres d)]; repeat split.
Qed.

Lemma non_object_result_is_fatal_witness :
  test_callout_fix
    (Examples.world_of Examples.fixture
       (Examples.answer Cases.wrapped_result)) =
    ((until_post Examples.fixture ++ [EvJson])%list, inl AttributeError) /\
  printed (trace (Examples.world_of Examples.fixture
                    (Examples.answer Cases.wrapped_result))) =
    [banner_line; creating_line] /\
  exit_code (Examples.world_of Examples.fixture
               (Examples.answer Cases.wrapped_result)) = 1.
Proof.
  apply (non_object_result_is_fatal
           (Examples.world_of Examples.fixture
              (Examples.answer Cases.wrapped_result))
           Examples.fixture (Examples.answer Cases.wrapped_result)
           Cases.wrapped_result eq_refl eq_refl eq_refl eq_refl).
  intros r. discriminate.
Defined.

(** A successful result whose [validation] is present and not an object
    ([null] too: the default of line 50 is for a missing key only):
    [validation.get] raises [AttributeError] at line 51, before the first
    line of the summary; the identifier of the created page is never shown
    and the process ends with status 1. *)
Theorem non_object_validation_is_fatal (w : world) (html : string)
    (resp : response) (r : list (string * pyval)) (x : pyval) :
  read_text w HTML_FILE = Some html ->
  serve w endpoint (payload_of html) 120 = Some resp ->
  status_code resp = 200 ->
  json_body resp = Some (PyDict r) ->
  truthy (find "success" r PyNone) = true ->
  lookup "validation" r = Some x ->
  (forall v, x <> PyDict v) ->
  test_callout_fix w =
    ((until_post html ++ [EvJson])%list, inl AttributeError) /\
  printed (trace w) = [banner_line; creating_line] /\
  exit_code w = 1.
Proof.
  intros Hr Hs H Hj Hsucc Hx Hnot. rewrite trace_of_run, exit_code_of_run.
  rewrite (run_decoded w html resp Hr Hs (PyDict r) H Hj), report_closed.
  cbn [report_lines report_end]. rewrite Hsucc.
  assert (Hv : find "validation" r (PyDict []) = x)
    by (unfold find; now rewrite Hx).
  rewrite Hv.
  destruct x as [| | | | | | d];
    [| | | | | | now contradiction (Hnot d)]; repeat split.
Qed.

Lemma non_object_validation_is_fatal_witness :
  test_callout_fix
    (Examples.world_of Examples.fixture
       (Examples.answer (PyDict Cases.null_validation))) =
    ((until_post Examples.fixture ++ [EvJson])%list, inl AttributeError) /\
  printed (trace (Examples.world_of Examples.fixture
                    (Examples.answer (PyDict Cases.null_validation)))) =
    [banner_line; creating_line] /\
  exit_code (Examples.world_of Examples.fixture
               (Examples.answer (PyDict Cases.null_validation))) = 1.
Proof.
  apply (non_object_validation_is_fatal
           (Examples.world_of Examples.fixture
              (Examples.answer (PyDict Cases.null_validation)))
           Examples.fixture _ Cases.null_validation PyNone
           eq_refl eq_refl eq_refl eq_refl eq_refl eq_refl).
  intros v. discriminate.
Defined.

(** ** The lines of the blocks *)

Section BlockLines.

Variable v : list (string * pyval).

Lemma counts_output_indented (heading key : string) :
  indented [Lit heading] = true ->
  forallb indented (counts_output heading key v) = true.
Proof.
  intros Hh. destruct heading as [| c h]; [discriminate |]. cbn in Hh.
  unfold counts_output, counts_lines.
  destruct (lookup key v) as [[] |]; cbn; rewrite ?Hh; reflexivity.
Qed.

Lemma warning_lines_indented (errors : list pyval) :
  forallb indented (warning_lines errors) = true.
Proof. induction errors as [| e rest IH]; [reflexivity | exact IH]. Qed.

Lemma errors_output_indented :
  forallb indented (errors_output v) = true.
Proof.
  unfold errors_output.
  destruct (lookup "errors" v) as [e |]; [| reflexivity].
  destruct (truthy e); [| reflexivity].
  destruct (iter e) as [x | errors]; [reflexivity |].
  cbn [forallb]. now rewrite warning_lines_indented.
Qed.

(** Every line of the blocks opens with a blank or a line feed. *)
Lemma blocks_output_indented : forallb indented (blocks_output v) = true.
Proof.
  unfold blocks_output.
  rewrite forallb_app, counts_output_indented by reflexivity.
  destruct (counts_shape "source" v); [| reflexivity].
  rewrite forallb_app, counts_output_indented by reflexivity.
  destruct (counts_shape "notion" v); [| reflexivity].
  now rewrite errors_output_indented.
Qed.

End BlockLines.

Lemma indented_not_failure (l : line) :
  indented l = true -> is_failure_line l = false.
Proof.
  destruct l as [| [s | |] l]; try discriminate.
  destruct s as [| c s]; [discriminate |]. cbn [indented is_failure_line].
  intros H. apply orb_prop in H as [H | H];
    apply Ascii.eqb_eq in H; subst c; reflexivity.
Qed.

(** No line of a summary opens with the cross mark. *)
Lemma summary_lines_no_failure (r v : list (string * pyval)) :
  forallb (fun l => negb (is_failure_line l)) (summary_lines r v) = true.
Proof.
  unfold summary_lines, summary_head. rewrite forallb_app.
  cbn. apply forallb_forall. intros l Hin.
  pose proof (blocks_output_indented v) as Hall.
  rewrite forallb_forall in Hall.
  now rewrite (indented_not_failure l (Hall l Hin)).
Qed.

(** ** The two branches of line 44 *)

(** The failure line of line 45 is printed exactly when [success] is falsy
    in Python's sense: [False], [None], 0, an empty string, list or object,
    or no [success] at all.  Any truthy value, the string ["false"] too,
    takes the summary branch. *)
Theorem failure_line_iff_falsy_success (w : world) (html : string)
    (resp : response) (r : list (string * pyval)) :
  read_text w HTML_FILE = Some html ->
  serve w endpoint (payload_of html) 120 = Some resp ->
  status_code resp = 200 ->
  json_body resp = Some (PyDict r) ->
  (In [Lit "❌ Page creation failed"] (printed (trace w)) <->
   truthy (find "success" r PyNone) = false).
Proof.
  intros Hr Hs H Hj.
  destruct (truthy (find "success" r PyNone)) eqn:Hsucc.
  - split; [| discriminate]. intros Hin. exfalso.
    destruct (dict_or_not (find "validation" r (PyDict []))) as [[v Hv] | Hv].
    + destruct (summary_run w html resp Hr Hs r v H Hj Hsucc Hv) as [Hp _].
      rewrite Hp in Hin.
      destruct Hin as [Hin | [Hin | Hin]]; try discriminate.
      apply written_subset in Hin.
      pose proof (summary_lines_no_failure r v) as Hall.
      rewrite forallb_forall in Hall. apply Hall in Hin. discriminate.
    + rewrite trace_of_run in Hin.
      rewrite (run_decoded w html resp Hr Hs (PyDict r) H Hj) in Hin.
      rewrite report_closed in Hin. cbn [report_lines fst] in Hin.
      rewrite Hsucc in Hin.
      destruct (find "validation" r (PyDict [])) as [| | | | | | v];
        try (cbn in Hin; intuition discriminate).
      now contradiction (Hv v).
  - split; [reflexivity |]. intros _. unfold trace.
    rewrite (main_failed w html resp Hr Hs r H Hj Hsucc).
    cbn. auto.
Qed.

Lemma failure_line_iff_falsy_success_witness :
  (In [Lit "❌ Page creation failed"]
      (printed (trace (Examples.world_of Examples.fixture
                         (Examples.answer (PyDict Cases.zero_success))))) <->
   truthy (find "success" Cases.zero_success PyNone) = false) /\
  (In [Lit "❌ Page creation failed"]
      (printed (trace (Examples.world_of Examples.fixture
                         (Examples.answer
                            (PyDict [("success", PyStr "false")]))))) <->
   truthy (find "success" [("success", PyStr "false")] PyNone) = false).
Proof.
  split.
  - exact (failure_line_iff_falsy_success
             (Examples.world_of Examples.fixture
                (Examples.answer (PyDict Cases.zero_success)))
             Examples.fixture _ Cases.zero_success
             eq_refl eq_refl eq_refl eq_refl).
  - exact (failure_line_iff_falsy_success
             (Examples.world_of Examples.fixture
                (Examples.answer (PyDict [("success", PyStr "false")])))
             Examples.fixture _ [("success", PyStr "false")]
             eq_refl eq_refl eq_refl eq_refl).
Defined.

(** ** What does not matter *)

(** On a 200 answer the text of the body is never printed or looked at: two
    runs that read the same fixture and get 200 answers that decode alike
    leave the same trace and the same exit status, whatever the bodies'
    texts. *)
Theorem response_text_is_unused_on_200 (w1 w2 : world) (html : string)
    (resp1 resp2 : response) :
  read_text w1 HTML_FILE = Some html ->
  serve w1 endpoint (payload_of html) 120 = Some resp1 ->
  read_text w2 HTML_FILE = Some html ->
  serve w2 endpoint (payload_of html) 120 = Some resp2 ->
  status_code resp1 = 200 ->
  status_code resp2 = 200 ->
  json_body resp1 = json_body resp2 ->
  main w1 = main w2.
Proof.
  intros Hr1 Hs1 Hr2 Hs2 H1 H2 Hj.
  rewrite (main_answered w1 html resp1 Hr1 Hs1).
  rewrite (main_answered w2 html resp2 Hr2 Hs2).
  destruct (json_body resp2) as [result |] eqn:Hj2.
  - rewrite (check_response_decoded resp1 result H1 Hj).
    now rewrite (check_response_decoded resp2 result H2 Hj2).
  - rewrite (check_response_undecodable resp1 H1 Hj).
    now rewrite (check_response_undecodable resp2 H2 Hj2).
Qed.

Lemma response_text_is_unused_on_200_witness :
  main (Examples.world_of Examples.fixture
          (mkResponse 200 "first text" (Some Examples.matching_result))) =
  main (Examples.world_of Examples.fixture
          (mkResponse 200 "second text" (Some Examples.matching_result))).
Proof.
  exact (response_text_is_unused_on_200
           (Examples.world_of Examples.fixture
              (mkResponse 200 "first text" (Some Examples.matching_result)))
           (Examples.world_of Examples.fixture
              (mkResponse 200 "second text" (Some Examples.matching_result)))
           Examples.fixture _ _
           eq_refl eq_refl eq_refl eq_refl eq_refl eq_refl eq_refl).
Defined.

(** ** The order of the input and output actions *)

Lemma actions_app (t t' : list event) :
  actions (t ++ t') = (actions t ++ actions t')%list.
Proof. apply filter_app. Qed.

Lemma actions_prints (t : list event) :
  forallb is_print t = true -> actions t = [].
Proof.
  induction t as [| e t IH]; [reflexivity |].
  cbn. destruct (is_print e); [exact IH | discriminate].
Qed.

(** Apart from printing, a run does at most three things, in this order and
    each at most once: it opens and reads the fixture (always), it posts the
    request (only after a successful read), and it decodes the body (only
    after a 200 answer). *)
Theorem actions_are_read_post_decode (w : world) :
  actions (trace w) =
  EvOpenRead HTML_FILE ::
  match read_text w HTML_FILE with
  | None => []
  | Some html =>
      EvPost endpoint (payload_of html) 120 ::
      match serve w endpoint (payload_of html) 120 with
      | None => []
      | Some resp => if status_code resp =? 200 then [EvJson] else []
      end
  end.
Proof.
  unfold trace.
  destruct (stage_of_run w) as [Hr | html Hr Hs | html resp Hr Hs].
  - now rewrite (main_unreadable w Hr), Hr.
  - now rewrite (main_unreachable w html Hr Hs), Hr, Hs.
  - rewrite (main_answered w html resp Hr Hs), Hr, Hs. cbn [fst].
    rewrite actions_app.
    change (actions (until_post html))
      with [EvOpenRead HTML_FILE; EvPost endpoint (payload_of html) 120].
    cbn [app]. do 2 f_equal.
    destruct (Z.eq_dec (status_code resp) 200) as [H | H].
    + rewrite H. cbn [Z.eqb Pos.eqb].
      destruct (json_body resp) as [result |] eqn:Hj.
      * rewrite (check_response_decoded resp result H Hj). cbn [fst].
        change (actions (EvJson :: fst (report result)))
          with (EvJson :: actions (fst (report result))).
        now rewrite (actions_prints _ (report_prints result)).
      * now rewrite (check_response_undecodable resp H Hj).
    + rewrite (check_response_rejected resp H). cbn [fst].
      rewrite (actions_prints _ (prints_map _)).
      apply Z.eqb_neq in H. now rewrite H.
Qed.

(** ** A run that exits 0 *)

Lemma exit_zero_inv (w : world) :
  exit_code w = 0 ->
  exists html resp r v,
    read_text w HTML_FILE = Some html /\
    serve w endpoint (payload_of html) 120 = Some resp /\
    status_code resp = 200 /\
    json_body resp = Some (PyDict r) /\
    truthy (find "success" r PyNone) = true /\
    find "validation" r (PyDict []) = PyDict v /\
    truthy (find "hasErrors" v (PyBool true)) = false /\
    printable (PyDict v) = true /\
    forallb encodable (summary_lines r v) = true.
Proof.
  unfold exit_code.
  destruct (stage_of_run w) as [Hr | html Hr Hs | html resp Hr Hs].
  - now rewrite (main_unreadable w Hr).
  - now rewrite (main_unreachable w html Hr Hs).
  - destruct (Z.eq_dec (status_code resp) 200) as [H | H].
    + destruct (json_body resp) as [result |] eqn:Hj.
      * rewrite (main_decoded w html resp Hr Hs result H Hj). cbn [snd].
        destruct (accepted result) eqn:Ha; [intros _ | discriminate].
        apply accepted_iff in Ha as (r & v & -> & Hrest).
        exists html, resp, r, v. auto 10.
      * now rewrite (main_undecodable w html resp Hr Hs H Hj).
    + now rewrite (main_rejected w html resp Hr Hs H).
Qed.

(** A run that exits 0 has printed no line that opens with the cross mark:
    neither the HTTP error of line 38 nor the failure of line 45. *)
Theorem exit_zero_prints_no_failure_line (w : world) :
  exit_code w = 0 ->
  forallb (fun l => negb (is_failure_line l)) (printed (trace w)) = true.
Proof.
  intros H0.
  destruct (exit_zero_inv w H0)
    as (html & resp & r & v & Hr & Hs & H & Hj & Hsucc & Hv & _ & _ & He).
  destruct (summary_run w html resp Hr Hs r v H Hj Hsucc Hv) as [Hp _].
  rewrite Hp, (written_all _ He). cbn [forallb].
  now rewrite summary_lines_no_failure.
Qed.

Lemma exit_zero_prints_no_failure_line_witness :
  forallb (fun l => negb (is_failure_line l))
    (printed (trace (Examples.world_of Examples.fixture
                       (Examples.answer Examples.matching_result)))) = true.
Proof.
  exact (exit_zero_prints_no_failure_line
           (Examples.world_of Examples.fixture
              (Examples.answer Examples.matching_result)) eq_refl).
Defined.

Example failure_lines_are_told_apart :
  is_failure_line [Lit "❌ Page creation failed"] = true /\
  is_failure_line [Lit "❌ Error: HTTP "; Fmt (PyInt 500)] = true /\
  is_failure_line [Lit "✅ Page created: "; Fmt PyNone] = false /\
  is_failure_line [Lit errors_heading] = false /\
  indented [Lit errors_heading] = true /\
  indented [Lit "      - "; Fmt PyNone] = true /\
  indented banner_line = false.
Proof. repeat split. Qed.

(** ** The summary, block by block *)

(** The output of a run that reaches the summary is the banner, the
    "Creating page" line, and then the lines of the summary as far as they
    can be written: the four opening lines and the blocks in the order
    source, notion, errors, a counts block only for an entry that is there,
    the errors block only for a truthy entry, no line after a block that
    raises, and no line from the first one that holds a lone surrogate.
    The exit status is 0 exactly when [hasErrors] is falsy, no block raises
    and every line can be written. *)
Theorem summary_is_printed_block_by_block (w : world) (html : string)
    (resp : response) (r v : list (string * pyval)) :
  read_text w HTML_FILE = Some html ->
  serve w endpoint (payload_of html) 120 = Some resp ->
  status_code resp = 200 ->
  json_body resp = Some (PyDict r) ->
  truthy (find "success" r PyNone) = true ->
  find "validation" r (PyDict []) = PyDict v ->
  printed (trace w) =
    banner_line :: creating_line ::
    written
      ([ [Lit "✅ Page created: "; Fmt (find "pageId" r PyNone)];
         [Lit "   URL: "; Fmt (find "url" r PyNone)];
         [Lit "
📊 Validation Results:"];
         [Lit "   Has Errors: "; Fmt (find "hasErrors" v (PyBool true))] ] ++
       blocks_output v)%list /\
  snd (test_callout_fix w) =
    (if forallb encodable (summary_lines r v)
     then verdict v (blocks_result v)
     else inl UnicodeEncodeError) /\
  exit_code w =
    (if negb (truthy (find "hasErrors" v (PyBool true))) &&
        printable (PyDict v) &&
        forallb encodable (summary_lines r v)
     then 0 else 1) /\
  (forallb encodable (summary_lines r v) = true ->
   printed (trace w) =
     (banner_line :: creating_line :: summary_lines r v)%list).
Proof.
  intros Hr Hs H Hj Hsucc Hv.
  destruct (summary_run w html resp Hr Hs r v H Hj Hsucc Hv)
    as (Hp & Hout & Hx).
  split; [exact Hp | split; [exact Hout | split]].
  - now rewrite Hx, status_of_summary.
  - intros He. now rewrite Hp, (written_all _ He).
Qed.

Lemma summary_is_printed_block_by_block_witness :
  printed (trace (Examples.world_of Examples.fixture
                    (Examples.answer (PyDict Examples.sparse_result)))) =
    banner_line :: creating_line ::
    written
      ([ [Lit "✅ Page created: ";
          Fmt (find "pageId" Examples.sparse_result PyNone)];
         [Lit "   URL: "; Fmt (find "url" Examples.sparse_result PyNone)];
         [Lit "
📊 Validation Results:"];
         [Lit "   Has Errors: ";
          Fmt (find "hasErrors" Examples.sparse_validation (PyBool true))] ] ++
       blocks_output Examples.sparse_validation)%list /\
  snd (test_callout_fix
         (Examples.world_of Examples.fixture
            (Examples.answer (PyDict Examples.sparse_result)))) =
    (if forallb encodable
          (summary_lines Examples.sparse_result Examples.sparse_validation)
     then verdict Examples.sparse_validation
            (blocks_result Examples.sparse_validation)
     else inl UnicodeEncodeError) /\
  exit_code (Examples.world_of Examples.fixture
               (Examples.answer (PyDict Examples.sparse_result))) =
    (if negb (truthy (find "hasErrors" Examples.sparse_validation
                        (PyBool true))) &&
        printable (PyDict Examples.sparse_validation) &&
        forallb encodable
          (summary_lines Examples.sparse_result Examples.sparse_validation)
     then 0 else 1) /\
  (forallb encodable
     (summary_lines Examples.sparse_result Examples.sparse_validation) =
     true ->
   printed (trace (Examples.world_of Examples.fixture
                     (Examples.answer (PyDict Examples.sparse_result)))) =
     (banner_line :: creating_line ::
      summary_lines Examples.sparse_result Examples.sparse_validation)%list).
Proof.
  exact (summary_is_printed_block_by_block
           (Examples.world_of Examples.fixture
              (Examples.answer (PyDict Examples.sparse_result)))
           Examples.fixture _ Examples.sparse_result
           Examples.sparse_validation
           eq_refl eq_refl eq_refl eq_refl eq_refl eq_refl).
Defined.

(** The same on a result whose URL is a lone surrogate: the line of the
    page identifier is the last. *)
Example summary_stops_at_the_url :
  let r := [ ("success", PyBool true);
             ("pageId", PyStr "abc123");
             ("url", PyStr Cases.lone_surrogate);
             ("validation", PyDict [("hasErrors", PyBool false)]) ] in
  let w := Examples.world_of Examples.fixture (Examples.answer (PyDict r)) in
  printed (trace w) =
    [ banner_line; creating_line;
      [Lit "✅ Page created: "; Fmt (PyStr "abc123")] ] /\
  snd (test_callout_fix w) = inl UnicodeEncodeError /\
  exit_code w = 1.
Proof. repeat split. Qed.

(** ** A block that raises *)

Lemma counts_entry_other (heading key : string)
    (v : list (string * pyval)) (x : pyval) :
  lookup key v = Some x ->
  (forall c, x <> PyDict c) ->
  counts_shape key v = false /\ counts_output heading key v = [[Lit heading]].
Proof.
  intros H Hx. unfold counts_shape, counts_output. rewrite H.
  destruct x; try (split; reflexivity). now contradiction (Hx d).
Qed.

(** A [source] or [notion] entry that is there and is not an object (a
    number, a string, a list, [null]): the process ends with status 1
    whatever [hasErrors] says; when the lines before the block are written,
    the heading of the block is the last line printed and the first counter
    line raises [AttributeError]. *)
Theorem non_object_counts_is_fatal (w : world) (html : string)
    (resp : response) (r v : list (string * pyval))
    (heading key : string) (before : list line) (x : pyval) :
  read_text w HTML_FILE = Some html ->
  serve w endpoint (payload_of html) 120 = Some resp ->
  status_code resp = 200 ->
  json_body resp = Some (PyDict r) ->
  truthy (find "success" r PyNone) = true ->
  find "validation" r (PyDict []) = PyDict v ->
  (heading, key, before) =
    (source_heading, "source", before_source r v) \/
  (heading, key, before) =
    (notion_heading, "notion", before_notion r v) /\
  counts_shape "source" v = true ->
  lookup key v = Some x ->
  (forall c, x <> PyDict c) ->
  exit_code w = 1 /\
  snd (test_callout_fix w) =
    (if forallb encodable before then inl AttributeError
     else inl UnicodeEncodeError) /\
  printed (trace w) =
    banner_line :: creating_line ::
    written (before ++ [[Lit heading]])%list /\
  (forallb encodable before = true ->
   printed (trace w) =
     (banner_line :: creating_line :: before ++ [[Lit heading]])%list).
Proof.
  intros Hr Hs H Hj Hsucc Hv Hkey Hx Hnot.
  destruct (summary_run w html resp Hr Hs r v H Hj Hsucc Hv)
    as (Hp & Hout & Hexit).
  destruct (counts_entry_other heading key v x Hx Hnot) as [Hshape Hco].
  assert (Hlines : summary_lines r v = (before ++ [[Lit heading]])%list /\
                   blocks_result v = inl AttributeError /\
                   encodable [Lit heading] = true).
  { unfold summary_lines, blocks_output, blocks_result.
    destruct Hkey as [[= -> -> ->] | [[= -> -> ->] Hsrc]].
    - rewrite Hshape, Hco, app_nil_r. now repeat split.
    - rewrite Hsrc, Hshape, Hco, app_nil_r, app_assoc. now repeat split. }
  destruct Hlines as (Hlines & Hblocks & Hhead).
  assert (Henc : forallb encodable (summary_lines r v) =
                 forallb encodable before).
  { rewrite Hlines, forallb_app. cbn [forallb].
    now rewrite Hhead, !andb_true_r. }
  rewrite Hexit, Hout, Hp. unfold summary_result.
  rewrite Henc, Hblocks, Hlines. cbn [verdict].
  split; [now destruct (forallb encodable before) |].
  split; [reflexivity | split; [reflexivity |]].
  intros Hb. rewrite (written_app _ _ Hb). cbn [written].
  now rewrite Hhead.
Qed.

Lemma non_object_counts_is_fatal_witness :
  exit_code (Examples.world_of Examples.fixture
               (Examples.answer
                  (PyDict (Cases.created Cases.list_for_notion)))) = 1 /\
  snd (test_callout_fix
         (Examples.world_of Examples.fixture
            (Examples.answer
               (PyDict (Cases.created Cases.list_for_notion))))) =
    (if forallb encodable
          (before_notion (Cases.created Cases.list_for_notion)
             Cases.list_for_notion)
     then inl AttributeError else inl UnicodeEncodeError) /\
  printed (trace (Examples.world_of Examples.fixture
                    (Examples.answer
                       (PyDict (Cases.created Cases.list_for_notion))))) =
    banner_line :: creating_line ::
    written (before_notion (Cases.created Cases.list_for_notion)
               Cases.list_for_notion ++ [[Lit notion_heading]])%list /\
  (forallb encodable
     (before_notion (Cases.created Cases.list_for_notion)
        Cases.list_for_notion) = true ->
   printed (trace (Examples.world_of Examples.fixture
                     (Examples.answer
                        (PyDict (Cases.created Cases.list_for_notion))))) =
     (banner_line :: creating_line ::
      before_notion (Cases.created Cases.list_for_notion)
        Cases.list_for_notion ++ [[Lit notion_heading]])%list).
Proof.
  apply (non_object_counts_is_fatal
           (Examples.world_of Examples.fixture
              (Examples.answer
                 (PyDict (Cases.created Cases.list_for_notion))))
           Examples.fixture _ (Cases.created Cases.list_for_notion)
           Cases.list_for_notion notion_heading "notion"
           (before_notion (Cases.created Cases.list_for_notion)
              Cases.list_for_notion)
           (PyList [PyInt 1])
           eq_refl eq_refl eq_refl eq_refl eq_refl eq_refl
           (or_intror (conj eq_refl eq_refl)) eq_refl).
  intros c. discriminate.
Defined.

(** A truthy [errors] entry that a [for] cannot run over ([true], a non-zero
    number): the process ends with status 1 whatever [hasErrors] says; when
    the lines before the block are written, the errors heading is the last
    line printed and line 74 raises [TypeError]. *)
Theorem non_iterable_errors_is_fatal (w : world) (html : string)
    (resp : response) (r v : list (string * pyval)) (e : pyval) :
  read_text w HTML_FILE = Some html ->
  serve w endpoint (payload_of html) 120 = Some resp ->
  status_code resp = 200 ->
  json_body resp = Some (PyDict r) ->
  truthy (find "success" r PyNone) = true ->
  find "validation" r (PyDict []) = PyDict v ->
  counts_shape "source" v = true ->
  counts_shape "notion" v = true ->
  lookup "errors" v = Some e ->
  truthy e = true ->
  iterable e = false ->
  exit_code w = 1 /\
  snd (test_callout_fix w) =
    (if forallb encodable (before_errors r v) then inl TypeError
     else inl UnicodeEncodeError) /\
  printed (trace w) =
    banner_line :: creating_line ::
    written (before_errors r v ++ [[Lit errors_heading]])%list /\
  (forallb encodable (before_errors r v) = true ->
   printed (trace w) =
     (banner_line :: creating_line ::
      before_errors r v ++ [[Lit errors_heading]])%list).
Proof.
  intros Hr Hs H Hj Hsucc Hv Hsrc Hnot He Ht Hi.
  destruct (summary_run w html resp Hr Hs r v H Hj Hsucc Hv)
    as (Hp & Hout & Hexit).
  assert (Hiter : iter e = inl TypeError)
    by (destruct e; try discriminate; reflexivity).
  assert (Hlines : summary_lines r v =
                   (before_errors r v ++ [[Lit errors_heading]])%list).
  { unfold summary_lines, blocks_output, before_errors, errors_output.
    now rewrite Hsrc, Hnot, He, Ht, Hiter, <- !app_assoc. }
  assert (Hblocks : blocks_result v = inl TypeError).
  { unfold blocks_result, errors_shape. now rewrite Hsrc, Hnot, He, Ht, Hi. }
  assert (Hhead : encodable [Lit errors_heading] = true) by reflexivity.
  assert (Henc : forallb encodable (summary_lines r v) =
                 forallb encodable (before_errors r v)).
  { rewrite Hlines, forallb_app. cbn [forallb].
    now rewrite Hhead, !andb_true_r. }
  rewrite Hexit, Hout, Hp. unfold summary_result.
  rewrite Henc, Hblocks, Hlines. cbn [verdict].
  split; [now destruct (forallb encodable (before_errors r v)) |].
  split; [reflexivity | split; [reflexivity |]].
  intros Hb. rewrite (written_app _ _ Hb). cbn [written].
  now rewrite Hhead.
Qed.

Lemma non_iterable_errors_is_fatal_witness :
  exit_code (Examples.world_of Examples.fixture
               (Examples.answer
                  (PyDict (Cases.created (Cases.clean_with (PyInt 2)))))) =
    1 /\
  snd (test_callout_fix
         (Examples.world_of Examples.fixture
            (Examples.answer
               (PyDict (Cases.created (Cases.clean_with (PyInt 2))))))) =
    (if forallb encodable
          (before_errors (Cases.created (Cases.clean_with (PyInt 2)))
             (Cases.clean_with (PyInt 2)))
     then inl TypeError else inl UnicodeEncodeError) /\
  printed (trace (Examples.world_of Examples.fixture
                    (Examples.answer
                       (PyDict (Cases.created
                                  (Cases.clean_with (PyInt 2))))))) =
    banner_line :: creating_line ::
    written (before_errors (Cases.created (Cases.clean_with (PyInt 2)))
               (Cases.clean_with (PyInt 2)) ++
             [[Lit errors_heading]])%list /\
  (forallb encodable
     (before_errors (Cases.created (Cases.clean_with (PyInt 2)))
        (Cases.clean_with (PyInt 2))) = true ->
   printed (trace (Examples.world_of Examples.fixture
                     (Examples.answer
                        (PyDict (Cases.created
                                   (Cases.clean_with (PyInt 2))))))) =
     (banner_line :: creating_line ::
      before_errors (Cases.created (Cases.clean_with (PyInt 2)))
        (Cases.clean_with (PyInt 2)) ++
      [[Lit errors_heading]])%list).
Proof.
  exact (non_iterable_errors_is_fatal
           (Examples.world_of Examples.fixture
              (Examples.answer
                 (PyDict (Cases.created (Cases.clean_with (PyInt 2))))))
           Examples.fixture _ (Cases.created (Cases.clean_with (PyInt 2)))
           (Cases.clean_with (PyInt 2)) (PyInt 2)
           eq_refl eq_refl eq_refl eq_refl eq_refl eq_refl
           eq_refl eq_refl eq_refl eq_refl eq_refl).
Defined.

(** ** The errors entry *)

(** A falsy [errors] entry of any type (an empty list, [null], 0, an empty
    string) is skipped without a line and without an exception, also where a
    [for] could not run over it: the output ends with the counts blocks,
    and when their lines are written the call returns by [hasErrors]. *)
Theorem falsy_errors_are_skipped (w : world) (html : string)
    (resp : response) (r v : list (string * pyval)) (e : pyval) :
  read_text w HTML_FILE = Some html ->
  serve w endpoint (payload_of html) 120 = Some resp ->
  status_code resp = 200 ->
  json_body resp = Some (PyDict r) ->
  truthy (find "success" r PyNone) = true ->
  find "validation" r (PyDict []) = PyDict v ->
  counts_shape "source" v = true ->
  counts_shape "notion" v = true ->
  lookup "errors" v = Some e ->
  truthy e = false ->
  printed (trace w) =
    banner_line :: creating_line :: written (before_errors r v) /\
  snd (test_callout_fix w) =
    (if forallb encodable (before_errors r v)
     then inr (negb (truthy (find "hasErrors" v (PyBool true))))
     else inl UnicodeEncodeError) /\
  (forallb encodable (before_errors r v) = true ->
   printed (trace w) =
     (banner_line :: creating_line ::
      printed (summary_head r v) ++
      counts_output source_heading "source" v ++
      counts_output notion_heading "notion" v)%list /\
   snd (test_callout_fix w) =
     inr (negb (truthy (find "hasErrors" v (PyBool true)))) /\
   exit_code w =
     (if truthy (find "hasErrors" v (PyBool true)) then 1 else 0)).
Proof.
  intros Hr Hs H Hj Hsucc Hv Hsrc Hnot He Ht.
  destruct (summary_run w html resp Hr Hs r v H Hj Hsucc Hv)
    as (Hp & Hout & Hexit).
  assert (Hlines : summary_lines r v = before_errors r v).
  { unfold summary_lines, blocks_output, before_errors, errors_output.
    now rewrite Hsrc, Hnot, He, Ht, app_nil_r. }
  assert (Hblocks : blocks_result v = inr tt).
  { unfold blocks_result, errors_shape. now rewrite Hsrc, Hnot, He, Ht. }
  rewrite Hexit, Hout, Hp. unfold summary_result.
  rewrite Hblocks, Hlines. cbn [verdict].
  split; [reflexivity | split; [reflexivity |]].
  intros Hb. rewrite Hb, (written_all _ Hb).
  split; [reflexivity | split; [reflexivity |]].
  cbn [status_of]. now destruct (truthy (find "hasErrors" v (PyBool true))).
Qed.

Lemma falsy_errors_are_skipped_witness :
  printed (trace (Examples.world_of Examples.fixture
                    (Examples.answer
                       (PyDict (Cases.created (Cases.clean_with PyNone)))))) =
    banner_line :: creating_line ::
    written (before_errors (Cases.created (Cases.clean_with PyNone))
               (Cases.clean_with PyNone)) /\
  snd (test_callout_fix
         (Examples.world_of Examples.fixture
            (Examples.answer
               (PyDict (Cases.created (Cases.clean_with PyNone)))))) =
    (if forallb encodable
          (before_errors (Cases.created (Cases.clean_with PyNone))
             (Cases.clean_with PyNone))
     then inr (negb (truthy (find "hasErrors" (Cases.clean_with PyNone)
                               (PyBool true))))
     else inl UnicodeEncodeError) /\
  (forallb encodable
     (before_errors (Cases.created (Cases.clean_with PyNone))
        (Cases.clean_with PyNone)) = true ->
   printed (trace (Examples.world_of Examples.fixture
                     (Examples.answer
                        (PyDict (Cases.created
                                   (Cases.clean_with PyNone)))))) =
     (banner_line :: creating_line ::
      printed (summary_head (Cases.created (Cases.clean_with PyNone))
                 (Cases.clean_with PyNone)) ++
      counts_output source_heading "source" (Cases.clean_with PyNone) ++
      counts_output notion_heading "notion" (Cases.clean_with PyNone))%list /\
   snd (test_callout_fix
          (Examples.world_of Examples.fixture
             (Examples.answer
                (PyDict (Cases.created (Cases.clean_with PyNone)))))) =
     inr (negb (truthy (find "hasErrors" (Cases.clean_with PyNone)
                          (PyBool true)))) /\
   exit_code (Examples.world_of Examples.fixture
                (Examples.answer
                   (PyDict (Cases.created (Cases.clean_with PyNone))))) =
     (if truthy (find "hasErrors" (Cases.clean_with PyNone) (PyBool true))
      then 1 else 0)).
Proof.
  exact (falsy_errors_are_skipped
           (Examples.world_of Examples.fixture
              (Examples.answer
                 (PyDict (Cases.created (Cases.clean_with PyNone)))))
           Examples.fixture _ (Cases.created (Cases.clean_with PyNone))
           (Cases.clean_with PyNone) PyNone
           eq_refl eq_refl eq_refl eq_refl eq_refl eq_refl
           eq_refl eq_refl eq_refl eq_refl).
Defined.

(** The characters of a string, put together again, are the string. *)
Lemma join_characters (s : string) : join (characters s) = s.
Proof.
  induction s as [| c rest IH]; [reflexivity |].
  cbn [characters]. destruct (characters rest) as [| p ps].
  - cbn in IH. now rewrite <- IH.
  - destruct (continues rest); cbn in *; now rewrite IH.
Qed.

(** The first character of a string opens with its first byte. *)
Lemma characters_first (s p : string) (ps : list string) :
  characters s = p :: ps ->
  exists c rest p', s = String c rest /\ p = String c p'.
Proof.
  destruct s as [| c rest]; [discriminate |]. cbn [characters].
  intros H. exists c, rest.
  destruct (characters rest) as [| q qs].
  - injection H as <- _. now exists EmptyString.
  - destruct (continues rest); injection H as <- _; eexists; eauto.
Qed.

Lemma characters_nil (s : string) : characters s = [] -> s = EmptyString.
Proof.
  destruct s as [| c rest]; [reflexivity |]. cbn [characters].
  destruct (characters rest); [discriminate |].
  destruct (continues rest); discriminate.
Qed.

Lemma opens_continues (s : string) :
  opens_surrogate s = true -> continues s = true.
Proof.
  destruct s as [| c rest]; [discriminate |].
  unfold opens_surrogate, continues, is_continuation.
  intros H. apply andb_prop in H as [Hl Hu].
  apply N.leb_le in Hl. apply N.leb_le in Hu.
  apply andb_true_intro. split; [apply N.leb_le | apply N.ltb_lt]; lia.
Qed.

(** A surrogate is one character: a string holds one exactly when one of
    its characters is one. *)
Lemma characters_encodable (s : string) :
  forallb value_encodable (map PyStr (characters s)) =
  negb (has_surrogate s).
Proof.
  induction s as [| c rest IH]; [reflexivity |].
  cbn [characters has_surrogate].
  destruct (characters rest) as [| p ps] eqn:Hch.
  - apply characters_nil in Hch. subst rest. cbn.
    now rewrite andb_false_r.
  - destruct (characters_first rest p ps Hch) as (c' & rest' & p' & -> & ->).
    destruct (continues (String c' rest')) eqn:Hcont.
    + change (forallb value_encodable
                (map PyStr (String c (String c' p') :: ps)))
        with (negb ((N_of_ascii c =? 237)%N &&
                    opens_surrogate (String c' rest') ||
                    has_surrogate (String c' p')) &&
              forallb value_encodable (map PyStr ps)).
      change (negb (has_surrogate (String c' p')) &&
              forallb value_encodable (map PyStr ps) =
              negb (has_surrogate (String c' rest'))) in IH.
      now rewrite !negb_orb, <- andb_assoc, IH.
    + assert (Ho : opens_surrogate (String c' rest') = false).
      { destruct (opens_surrogate (String c' rest')) eqn:Ho;
          [| reflexivity].
        apply opens_continues in Ho. congruence. }
      rewrite Ho, andb_false_r. cbn [orb].
      change (forallb value_encodable
                (map PyStr (String c EmptyString :: String c' p' :: ps)))
        with (negb (has_surrogate (String c EmptyString)) &&
              forallb value_encodable (map PyStr (String c' p' :: ps))).
      rewrite IH. cbn [has_surrogate opens_surrogate].
      now rewrite andb_false_r.
Qed.

(** An [errors] entry that is a non-empty string is taken apart by the
    [for] of line 74: after the heading comes one warning line for each
    character of the string, in order, as far as the lines can be written.
    When the string holds no lone surrogate and the lines before the block
    are written, every character gets its line and the exit status is
    still decided by [hasErrors]. *)
Theorem string_errors_print_per_character (w : world) (html : string)
    (resp : response) (r v : list (string * pyval)) (s : string) :
  read_text w HTML_FILE = Some html ->
  serve w endpoint (payload_of html) 120 = Some resp ->
  status_code resp = 200 ->
  json_body resp = Some (PyDict r) ->
  truthy (find "success" r PyNone) = true ->
  find "validation" r (PyDict []) = PyDict v ->
  counts_shape "source" v = true ->
  counts_shape "notion" v = true ->
  lookup "errors" v = Some (PyStr s) ->
  s <> EmptyString ->
  printed (trace w) =
    banner_line :: creating_line ::
    written (before_errors r v ++
             [Lit errors_heading] ::
             warning_lines (map PyStr (characters s)))%list /\
  join (characters s) = s /\
  (forallb encodable (before_errors r v) = true ->
   has_surrogate s = false ->
   printed (trace w) =
     (banner_line :: creating_line ::
      before_errors r v ++
      [Lit errors_heading] ::
      warning_lines (map PyStr (characters s)))%list /\
   exit_code w =
     (if truthy (find "hasErrors" v (PyBool true)) then 1 else 0)).
Proof.
  intros Hr Hs H Hj Hsucc Hv Hsrc Hnot He Hne.
  destruct (summary_run w html resp Hr Hs r v H Hj Hsucc Hv)
    as (Hp & Hout & Hexit).
  assert (Ht : truthy (PyStr s) = true) by now destruct s.
  assert (Hlines : summary_lines r v =
                   (before_errors r v ++
                    [Lit errors_heading] ::
                    warning_lines (map PyStr (characters s)))%list).
  { unfold summary_lines, blocks_output, before_errors, errors_output.
    rewrite Hsrc, Hnot, He, Ht. cbn [iter]. now rewrite <- !app_assoc. }
  assert (Hblocks : blocks_result v = inr tt).
  { unfold blocks_result, errors_shape. rewrite Hsrc, Hnot, He, Ht.
    reflexivity. }
  rewrite Hexit, Hp. unfold summary_result. rewrite Hblocks, Hlines.
  split; [reflexivity | split; [apply join_characters |]].
  intros Hb Hsur.
  assert (Hall : forallb encodable
                   (before_errors r v ++
                    [Lit errors_heading] ::
                    warning_lines (map PyStr (characters s)))%list = true).
  { rewrite forallb_app, Hb. cbn [forallb andb].
    rewrite warning_lines_encodable, characters_encodable, Hsur.
    reflexivity. }
  rewrite Hall, (written_all _ Hall). split; [reflexivity |].
  cbn [verdict status_of].
  now destruct (truthy (find "hasErrors" v (PyBool true))).
Qed.

Lemma string_errors_print_per_character_witness :
  printed (trace (Examples.world_of Examples.fixture
                    (Examples.answer
                       (PyDict (Cases.created
                                  (Cases.clean_with (PyStr "bad"))))))) =
    banner_line :: creating_line ::
    written (before_errors (Cases.created (Cases.clean_with (PyStr "bad")))
               (Cases.clean_with (PyStr "bad")) ++
             [Lit errors_heading] ::
             warning_lines (map PyStr (characters "bad")))%list /\
  join (characters "bad") = "bad" /\
  (forallb encodable
     (before_errors (Cases.created (Cases.clean_with (PyStr "bad")))
        (Cases.clean_with (PyStr "bad"))) = true ->
   has_surrogate "bad" = false ->
   printed (trace (Examples.world_of Examples.fixture
                     (Examples.answer
                        (PyDict (Cases.created
                                   (Cases.clean_with (PyStr "bad"))))))) =
     (banner_line :: creating_line ::
      before_errors (Cases.created (Cases.clean_with (PyStr "bad")))
        (Cases.clean_with (PyStr "bad")) ++
      [Lit errors_heading] ::
      warning_lines (map PyStr (characters "bad")))%list /\
   exit_code (Examples.world_of Examples.fixture
                (Examples.answer
                   (PyDict (Cases.created
                              (Cases.clean_with (PyStr "bad")))))) =
     (if truthy (find "hasErrors" (Cases.clean_with (PyStr "bad"))
                   (PyBool true))
      then 1 else 0)).
Proof.
  apply (string_errors_print_per_character
           (Examples.world_of Examples.fixture
              (Examples.answer
                 (PyDict (Cases.created (Cases.clean_with (PyStr "bad"))))))
           Examples.fixture _
           (Cases.created (Cases.clean_with (PyStr "bad")))
           (Cases.clean_with (PyStr "bad")) "bad"
           eq_refl eq_refl eq_refl eq_refl eq_refl eq_refl
           eq_refl eq_refl eq_refl).
  discriminate.
Defined.

(** A string with a lone surrogate in it: the warning lines stop before the
    character that cannot be written, and the status is 1 with [hasErrors]
    false. *)
Example string_errors_stop_at_a_surrogate :
  let s := String "a" Cases.lone_surrogate in
  let w := Examples.world_of Examples.fixture
             (Examples.answer
                (PyDict (Cases.created (Cases.clean_with (PyStr s))))) in
  characters s = ["a"; Cases.lone_surrogate] /\
  printed (trace w) =
    [ banner_line; creating_line;
      [Lit "✅ Page created: "; Fmt (PyStr "abc123")];
      [Lit "   URL: "; Fmt (PyStr "https://notion.so/abc123")];
      [Lit "
📊 Validation Results:"];
      [Lit "   Has Errors: "; Fmt (PyBool false)];
      [Lit errors_heading];
      [Lit "      - "; Fmt (PyStr "a")] ] /\
  snd (test_callout_fix w) = inl UnicodeEncodeError /\
  exit_code w = 1.
Proof. repeat split. Qed.

(** ** The page identifier and the URL *)

(** The identifier and the URL of the page are only shown: two decoded
    results that agree on every key but [pageId] and [url], and whose
    [pageId] and [url] can be written, end with the same exit status. *)
Theorem page_id_and_url_do_not_decide (w1 w2 : world) (html1 html2 : string)
    (resp1 resp2 : response) (r1 r2 : list (string * pyval)) :
  read_text w1 HTML_FILE = Some html1 ->
  serve w1 endpoint (payload_of html1) 120 = Some resp1 ->
  status_code resp1 = 200 ->
  json_body resp1 = Some (PyDict r1) ->
  read_text w2 HTML_FILE = Some html2 ->
  serve w2 endpoint (payload_of html2) 120 = Some resp2 ->
  status_code resp2 = 200 ->
  json_body resp2 = Some (PyDict r2) ->
  (forall k, k <> "pageId" -> k <> "url" -> lookup k r1 = lookup k r2) ->
  value_encodable (find "pageId" r1 PyNone) = true ->
  value_encodable (find "url" r1 PyNone) = true ->
  value_encodable (find "pageId" r2 PyNone) = true ->
  value_encodable (find "url" r2 PyNone) = true ->
  exit_code w1 = exit_code w2.
Proof.
  intros Hr1 Hs1 H1 Hj1 Hr2 Hs2 H2 Hj2 Hagree Hid1 Hurl1 Hid2 Hurl2.
  unfold exit_code.
  rewrite (main_decoded w1 html1 resp1 Hr1 Hs1 (PyDict r1) H1 Hj1).
  rewrite (main_decoded w2 html2 resp2 Hr2 Hs2 (PyDict r2) H2 Hj2).
  cbn [snd accepted].
  assert (Hsucc : find "success" r1 PyNone = find "success" r2 PyNone).
  { unfold find. now rewrite (Hagree "success") by discriminate. }
  assert (Hv : find "validation" r1 (PyDict []) =
               find "validation" r2 (PyDict [])).
  { unfold find. now rewrite (Hagree "validation") by discriminate. }
  rewrite Hsucc, Hv.
  destruct (find "validation" r2 (PyDict [])) as [| | | | | | v];
    try reflexivity.
  rewrite !summary_lines_encodable, !head_encodable.
  now rewrite Hid1, Hurl1, Hid2, Hurl2.
Qed.

Lemma page_id_and_url_do_not_decide_witness :
  exit_code (Examples.world_of Examples.fixture
               (Examples.answer
                  (PyDict [ ("success", PyBool true);
                            ("pageId", PyStr "abc123");
                            ("validation",
                              PyDict [("hasErrors", PyBool false)]) ]))) =
  exit_code (Examples.world_of Examples.fixture
               (Examples.answer
                  (PyDict [ ("success", PyBool true);
                            ("validation",
                              PyDict [("hasErrors", PyBool false)]) ]))).
Proof.
  apply (page_id_and_url_do_not_decide
           (Examples.world_of Examples.fixture
              (Examples.answer
                 (PyDict [ ("success", PyBool true);
                           ("pageId", PyStr "abc123");
                           ("validation",
                             PyDict [("hasErrors", PyBool false)]) ])))
           (Examples.world_of Examples.fixture
              (Examples.answer
                 (PyDict [ ("success", PyBool true);
                           ("validation",
                             PyDict [("hasErrors", PyBool false)]) ])))
           Examples.fixture Examples.fixture _ _
           [ ("success", PyBool true);
             ("pageId", PyStr "abc123");
             ("validation", PyDict [("hasErrors", PyBool false)]) ]
           [ ("success", PyBool true);
             ("validation", PyDict [("hasErrors", PyBool false)]) ]
           eq_refl eq_refl eq_refl eq_refl eq_refl eq_refl eq_refl eq_refl).
  - intros k Hid Hurl. cbn [lookup].
    destruct (String.eqb k "success"); [reflexivity |].
    destruct (String.eqb_spec k "pageId"); [contradiction | reflexivity].
  - reflexivity.
  - reflexivity.
  - reflexivity.
  - reflexivity.
Defined.
